(** * book_alchemy: the library application of [app.py]

    A shallow embedding of the four Flask views of [app.py] ([home],
    [add_author], [add_book], [delete_book]) over an explicit model of the
    committed database, and the properties of the author/book life cycle and
    of the search/sort query.

    Conventions of the embedding:
    - text is [string], a sequence of 8-bit characters; the views are
      modelled on ASCII text (Python's [str.strip] and [int], SQLite's
      [lower] and [LIKE] restricted to code points below 128);
    - integers are [Z]; SQLite stores and binds integers of 64 bits, and a
      Python integer outside that range raises [OverflowError] when it is
      bound to a statement;
    - the library functions are modelled as CPython 3.11 and SQLite 3.40
      behave; requests stay within the size limits of the server and of
      SQLite (a search text of 49 999 bytes or more makes a pattern that
      SQLite's LIKE refuses, which is not modelled);
    - a table is a finite map from its integer primary key to its row; the
      keys of a table are those SQLite has given out on insert, positive
      integers of 64 bits below the largest one;
    - a view is a function from the committed store and the request to the
      response and the committed store after the request. *)

From Stdlib Require Import ZArith Ascii String.
From stdpp Require Import gmap strings list sorting fin_maps.

Local Open Scope Z_scope.

(** ** Python and SQL text primitives *)

Module Text.

(** [str.isspace] on one ASCII character: tab, line feed, vertical tab,
    form feed, carriage return, the four separators 0x1c-0x1f, space. *)
Definition isspace (c : ascii) : bool :=
  let n := N_of_ascii c in
  ((9 <=? n) && (n <=? 13) || (28 <=? n) && (n <=? 32))%N.

Fixpoint lstrip (s : string) : string :=
  match s with
  | EmptyString => EmptyString
  | String c s' => if isspace c then lstrip s' else s
  end.

Fixpoint rstrip (s : string) : string :=
  match s with
  | EmptyString => EmptyString
  | String c s' =>
      match rstrip s' with
      | EmptyString => if isspace c then EmptyString else String c EmptyString
      | r => String c r
      end
  end.

(** [s.strip()] *)
Definition strip (s : string) : string := rstrip (lstrip s).

(** Truth value of a [str]: [if s:] *)
Definition truthy (s : string) : bool :=
  match s with EmptyString => false | String _ _ => true end.

(** SQLite's [lower()]: folds the ASCII letters only. *)
Definition lower_ascii (c : ascii) : ascii :=
  let n := N_of_ascii c in
  if ((65 <=? n) && (n <=? 90))%N then ascii_of_N (n + 32) else c.

Fixpoint lower (s : string) : string :=
  match s with
  | EmptyString => EmptyString
  | String c s' => String (lower_ascii c) (lower s')
  end.

Definition percent : ascii := ascii_of_N 37.
Definition underscore : ascii := ascii_of_N 95.

(** SQLite's [text LIKE pattern] without an ESCAPE clause: [%] matches any
    run of characters, [_] matches exactly one character, any other
    character matches itself up to ASCII case. *)
Fixpoint like (pattern text : string) : bool :=
  match pattern with
  | EmptyString => negb (truthy text)
  | String p pattern' =>
      if Ascii.eqb p percent then
        (fix skip (t : string) : bool :=
           like pattern' t
           || match t with
              | EmptyString => false
              | String _ t' => skip t'
              end) text
      else
        match text with
        | EmptyString => false
        | String c text' =>
            (Ascii.eqb p underscore
             || Ascii.eqb (lower_ascii p) (lower_ascii c))
            && like pattern' text'
        end
  end.

Definition nul : ascii := ascii_of_N 0.

(** A text as SQLite's LIKE reads it, as a C string: up to its first NUL
    character. *)
Fixpoint c_str (s : string) : string :=
  match s with
  | EmptyString => EmptyString
  | String c s' => if Ascii.eqb c nul then EmptyString else String c (c_str s')
  end.

(** SQLAlchemy's [column.ilike(pattern)] on SQLite:
    [lower(column) LIKE lower(pattern)]. [lower] keeps every character of
    its argument; LIKE reads both operands as C strings. *)
Definition ilike (column pattern : string) : bool :=
  like (c_str (lower pattern)) (c_str (lower column)).

(** The text has no NUL character. *)
Fixpoint nul_free (s : string) : bool :=
  match s with
  | EmptyString => true
  | String c s' => negb (Ascii.eqb c nul) && nul_free s'
  end.

(** The text has none of the two LIKE wildcards. *)
Fixpoint wildcard_free (s : string) : bool :=
  match s with
  | EmptyString => true
  | String c s' =>
      negb (Ascii.eqb c percent) && negb (Ascii.eqb c underscore)
      && wildcard_free s'
  end.

(** [q] occurs in [s] as a contiguous run of characters, comparing up to
    ASCII case. *)
Definition ci_substring (q s : string) : Prop :=
  ∃ pre post, lower s = pre +:+ lower q +:+ post.

(** [q] occurs in [s] as a contiguous run of characters, exactly. *)
Definition substring_of (q s : string) : Prop :=
  ∃ pre post, s = pre +:+ q +:+ post.

End Text.

(** ** Exceptions *)

Inductive Exn := ValueError | OverflowError | IntegrityError.

(** A computation that returns or raises. *)
Inductive exc (A : Type) : Type :=
| Ok (a : A)
| Raise (e : Exn).
Arguments Ok {A} a.
Arguments Raise {A} e.

Global Instance exc_ret : MRet exc := λ A a, Ok a.
Global Instance exc_bind : MBind exc := λ A B f m,
  match m with Ok a => f a | Raise e => Raise e end.
Global Instance exc_fmap : FMap exc := λ A B f m,
  match m with Ok a => Ok (f a) | Raise e => Raise e end.

(** ** Python parsers *)

Module Py.

Definition digit (c : ascii) : option Z :=
  let n := N_of_ascii c in
  if ((48 <=? n) && (n <=? 57))%N then Some (Z.of_N n - 48) else None.

(** The digits of an [int] literal: decimal digits, with single
    underscores allowed between two digits. [after_digit] tells whether
    the previous character was a digit. *)
Fixpoint int_digits (s : string) (acc : Z) (after_digit : bool) : option Z :=
  match s with
  | EmptyString => if after_digit then Some acc else None
  | String c s' =>
      if Ascii.eqb c Text.underscore then
        if after_digit then int_digits s' acc false else None
      else
        match digit c with
        | Some d => int_digits s' (10 * acc + d) true
        | None => None
        end
  end.

Definition plus_sign : ascii := ascii_of_N 43.
Definition minus_sign : ascii := ascii_of_N 45.

Definition int_signed (s : string) : option Z :=
  match s with
  | EmptyString => None
  | String c s' =>
      if Ascii.eqb c minus_sign then Z.opp <$> int_digits s' 0 false
      else if Ascii.eqb c plus_sign then int_digits s' 0 false
      else int_digits s 0 false
  end.

(** The whitespace [int] skips around an ASCII literal: the blank and
    the control characters 9 to 13. *)
Definition isspace (c : ascii) : bool :=
  let n := N_of_ascii c in
  ((9 <=? n) && (n <=? 13) || (n =? 32))%N.

Fixpoint lskip (s : string) : string :=
  match s with
  | EmptyString => EmptyString
  | String c s' => if isspace c then lskip s' else s
  end.

Fixpoint rskip (s : string) : string :=
  match s with
  | EmptyString => EmptyString
  | String c s' =>
      match rskip s' with
      | EmptyString => if isspace c then EmptyString else String c EmptyString
      | r => String c r
      end
  end.

(** The number of decimal digits in a text. *)
Fixpoint digit_count (s : string) : Z :=
  match s with
  | EmptyString => 0
  | String c s' =>
      (if digit c is Some _ then 1 else 0) + digit_count s'
  end.

(** [sys.get_int_max_str_digits()]: the longest literal [int] converts. *)
Definition max_str_digits : Z := 4300.

(** [int(s)] in base ten: surrounding whitespace is ignored; a literal of
    more than [max_str_digits] digits, and anything that is not an
    optionally signed run of digits, raises [ValueError]. *)
Definition int (s : string) : exc Z :=
  let literal := rskip (lskip s) in
  if max_str_digits <? digit_count literal then Raise ValueError
  else
    match int_signed literal with
    | Some z => Ok z
    | None => Raise ValueError
    end.

End Py.

(** A calendar date, [datetime.date]. *)
Record Date := { year : Z; month : Z; day : Z }.

Module PyDate.

Definition is_leap (y : Z) : bool :=
  (y mod 4 =? 0) && (negb (y mod 100 =? 0) || (y mod 400 =? 0)).

Definition days_in_month (y m : Z) : Z :=
  if m =? 2 then (if is_leap y then 29 else 28)
  else if (m =? 4) || (m =? 6) || (m =? 9) || (m =? 11) then 30
  else 31.

(** [date(y, m, d)] accepts years 1..9999 and the days of the month. *)
Definition valid (y m d : Z) : bool :=
  (1 <=? y) && (y <=? 9999) && (1 <=? m) && (m <=? 12)
  && (1 <=? d) && (d <=? days_in_month y m).

(** [n] decimal digits at the head of a text: their value and the rest. *)
Fixpoint digits (n : nat) (s : string) (acc : Z) : option (Z * string) :=
  match n with
  | O => Some (acc, s)
  | S n' =>
      match s with
      | EmptyString => None
      | String c s' => d ← Py.digit c; digits n' s' (10 * acc + d)
      end
  end.

(** The days before the first of January of year [y]. *)
Definition days_before_year (y : Z) : Z :=
  let y1 := y - 1 in
  y1 * 365 + y1 / 4 - y1 / 100 + y1 / 400.

(** The day of the week of the first of January, Monday being [0]. *)
Definition first_weekday (y : Z) : Z :=
  (days_before_year y + 1 + 6) mod 7.

(** The ordinal of the Monday that starts ISO week 1 of year [y]. *)
Definition iso_week1_monday (y : Z) : Z :=
  let first_day := days_before_year y + 1 in
  let monday := first_day - first_weekday y in
  if 3 <? first_weekday y then monday + 7 else monday.

(** The month and day of the [n]-th day (from zero) of year [y]. *)
Fixpoint month_and_day (fuel : nat) (y m n : Z) : Z * Z :=
  match fuel with
  | O => (m, n + 1)
  | S fuel' =>
      if n <? days_in_month y m then (m, n + 1)
      else month_and_day fuel' y (m + 1) (n - days_in_month y m)
  end.

(** The date of an ordinal, the first of January of year 1 being [1]. *)
Definition ord_to_ymd (ordinal : Z) : Z * Z * Z :=
  let n := ordinal - 1 in
  let n400 := n / 146097 in
  let n := n mod 146097 in
  let n100 := n / 36524 in
  let n := n mod 36524 in
  let n4 := n / 1461 in
  let n := n mod 1461 in
  let n1 := n / 365 in
  let n := n mod 365 in
  let y := n400 * 400 + n100 * 100 + n4 * 4 + n1 + 1 in
  if (n1 =? 4) || (n100 =? 4) then (y - 1, 12, 31)
  else let '(m, d) := month_and_day 11 y 1 n in (y, m, d).

(** The date of day [d] of ISO week [w] of ISO year [y]. Week 53 exists
    in the years that start on a Thursday, and in the leap years that
    start on a Wednesday. *)
Definition iso_to_ymd (y w d : Z) : option (Z * Z * Z) :=
  if y <? 1 then None
  else if (w <=? 0) || (53 <? w)
          || (w =? 53)
             && negb ((first_weekday y =? 3)
                      || (first_weekday y =? 2) && is_leap y)
  then None
  else if (d <=? 0) || (8 <=? d) then None
  else Some (ord_to_ymd (iso_week1_monday y + (w - 1) * 7 + d - 1)).

(** A dash at the head of a text, taken off. *)
Definition dash (s : string) : bool * string :=
  match s with
  | String c s' => if Ascii.eqb c Py.minus_sign then (true, s') else (false, s)
  | EmptyString => (false, s)
  end.

(** The separator that must follow when the date is written with
    dashes. *)
Definition separator (uses_separator : bool) (s : string) : option string :=
  if uses_separator
  then (let '(found, s') := dash s in if found then Some s' else None)
  else Some s.

Definition letter_W : ascii := ascii_of_N 87.

(** The date components of an ISO 8601 text: YYYY-MM-DD, YYYYMMDD,
    YYYY-Www, YYYYWww, YYYY-Www-D or YYYYWwwD. Characters after the last
    component are not looked at. *)
Definition components (s : string) : option (Z * Z * Z) :=
  '(y, s) ← digits 4 s 0;
  let '(uses_separator, s) := dash s in
  match s with
  | String c s' =>
      if Ascii.eqb c letter_W then
        '(w, s) ← digits 2 s' 0;
        match s with
        | EmptyString => iso_to_ymd y w 1
        | String _ _ =>
            s ← separator uses_separator s;
            '(d, _) ← digits 1 s 0;
            iso_to_ymd y w d
        end
      else
        '(m, s) ← digits 2 s 0;
        s ← separator uses_separator s;
        '(d, _) ← digits 2 s 0;
        Some (y, m, d)
  | EmptyString => None
  end.

Definition parse (s : string) : option Date :=
  let len := String.length s in
  if bool_decide (len = 7%nat ∨ len = 8%nat ∨ len = 10%nat) then
    '(y, m, d) ← components s;
    if valid y m d then Some {| year := y; month := m; day := d |}
    else None
  else None.

(** [date.fromisoformat(s)]: the date of an ISO 8601 text of 7, 8 or 10
    characters; any other text, and any date that does not exist, raises
    [ValueError]. *)
Definition fromisoformat (s : string) : exc Date :=
  match parse s with
  | Some d => Ok d
  | None => Raise ValueError
  end.

End PyDate.

(** ** Storage schema *)

(** Modelled from the spec: the module [data_models] (the [Author] model) is
    not among the sources. Section 3 gives an author a system-assigned
    identifier, a required name and two optional calendar dates. The
    identifier is the key of the [authors] table below. *)
Record Author := {
  name : string;
  birth_date : option Date;
  date_of_death : option Date;
}.

(** Modelled from the spec: the module [data_models] (the [Book] model) is
    not among the sources. Section 3 gives a book a system-assigned
    identifier, a required ISBN, a required title, an optional integer
    publication year and a required author reference. The identifier is the
    key of the [books] table below. *)
Record Book := {
  isbn : string;
  title : string;
  publication_year : option Z;
  author_id : Z;
}.

(** The committed database: two tables keyed by primary key. *)
Record Store := {
  authors : gmap Z Author;
  books : gmap Z Book;
}.

Module DB.

(** The integers SQLite can hold: 64 bits, sign included. *)
Definition int64 (z : Z) : bool :=
  (-9223372036854775808 <=? z) && (z <=? 9223372036854775807).

(** An integer column value that may be null. *)
Definition int64_or_null (o : option Z) : bool :=
  match o with
  | Some z => int64 z
  | None => true
  end.

(** The identifier given to the next row of a table: one more than the
    largest key in use, [1] for an empty table. *)
Definition next_id {A} (m : gmap Z A) : Z :=
  map_fold (λ k _ acc, Z.max (k + 1) acc) 1 m.

(** [db.session.add(author); db.session.commit()] *)
Definition insert_author (st : Store) (a : Author) : Store :=
  {| authors := <[next_id (authors st) := a]> (authors st);
     books := books st |}.

(** Some book of the table carries this ISBN. *)
Definition isbn_taken (bs : gmap Z Book) (i : string) : Prop :=
  map_Exists (λ _ b, isbn b = i) bs.

Global Instance isbn_taken_dec bs i : Decision (isbn_taken bs i).
Proof. unfold isbn_taken. apply _. Defined.

(** Modelled from the spec: the table constraints are declared in
    [data_models], which is not among the sources. Section 4.1 has the
    storage reject a second book with an ISBN already present; the
    reference from a book to its author is checked only when the
    database runs with [foreign_keys] on.

    [db.session.add(book); db.session.commit()]: the new store, or the
    exception of the failed INSERT. The values are bound to the statement
    before it runs: an integer outside the 64-bit range raises
    [OverflowError] there, whatever the tables hold. *)
Definition insert_book (foreign_keys : bool) (st : Store) (b : Book)
  : exc Store :=
  if negb (int64_or_null (publication_year b) && int64 (author_id b))
  then Raise OverflowError
  else if decide (isbn_taken (books st) (isbn b)) then Raise IntegrityError
  else if foreign_keys && negb (bool_decide (is_Some (authors st !! author_id b)))
  then Raise IntegrityError
  else Ok {| authors := authors st;
             books := <[next_id (books st) := b]> (books st) |}.

(** [Book.query.get(book_id)]: the row with this key, if there is one.
    The tables hold 64-bit keys only: a key outside that range is the key
    of no row, and binding it to the SELECT raises [OverflowError]. *)
Definition get_book (st : Store) (book_id : Z) : exc (option Book) :=
  match books st !! book_id with
  | Some book => Ok (Some book)
  | None => if int64 book_id then Ok None else Raise OverflowError
  end.

(** [db.session.delete(book); db.session.commit()] *)
Definition delete_book_row (st : Store) (book_id : Z) : Store :=
  {| authors := authors st; books := delete book_id (books st) |}.

(** [db.session.delete(author); db.session.commit()] *)
Definition delete_author_row (st : Store) (aid : Z) : Store :=
  {| authors := delete aid (authors st); books := books st |}.

(** [Book.query.filter_by(author_id=aid).count()] *)
Definition count_books_by_author (st : Store) (aid : Z) : nat :=
  size (filter (λ kb, author_id kb.2 = aid) (books st)).

(** A row of [Book.query.join(Author)]: a book, its key, and the author
    its reference resolves to. *)
Definition Row : Type := Z * Book * Author.

Definition row_book (r : Row) : Book := r.1.2.
Definition row_author (r : Row) : Author := r.2.

(** The [Book] entity a row is loaded as. *)
Definition entity (r : Row) : Z * Book := r.1.

(** [Book.query.join(Author)]: the inner join on
    [books.author_id = authors.id]. *)
Definition join_author (st : Store) : list Row :=
  omap (λ kb : Z * Book, a ← authors st !! author_id kb.2; Some (kb, a))
       (map_to_list (books st)).

(** The filter of [home]:
    [or_(Book.title.ilike(p), Book.isbn.ilike(p), Author.name.ilike(p))] *)
Definition row_matches (pattern : string) (r : Row) : bool :=
  Text.ilike (title (row_book r)) pattern
  || Text.ilike (isbn (row_book r)) pattern
  || Text.ilike (name (row_author r)) pattern.

(** [ORDER BY books.title ASC] *)
Definition by_title (r1 r2 : Row) : Prop :=
  (title (row_book r1) ≤ title (row_book r2))%string.

(** [ORDER BY authors.name ASC, books.title ASC] *)
Definition by_author_title (r1 r2 : Row) : Prop :=
  (name (row_author r1) ≠ name (row_author r2)
   ∧ (name (row_author r1) ≤ name (row_author r2))%string)
  ∨ (name (row_author r1) = name (row_author r2)
     ∧ (title (row_book r1) ≤ title (row_book r2))%string).

(** [ORDER BY authors.name ASC] over the authors table *)
Definition by_name (a1 a2 : Z * Author) : Prop :=
  (name a1.2 ≤ name a2.2)%string.

Global Instance by_title_dec : RelDecision by_title.
Proof. intros r1 r2. unfold by_title. apply _. Defined.
Global Instance by_author_title_dec : RelDecision by_author_title.
Proof. intros r1 r2. unfold by_author_title. apply _. Defined.
Global Instance by_name_dec : RelDecision by_name.
Proof. intros r1 r2. unfold by_name. apply _. Defined.

(** [query.order_by(...)]: the rows sorted into the order. *)
Definition order_by {A} (R : relation A) `{!RelDecision R}
  (rows : list A) : list A := merge_sort R rows.

End DB.

(** ** Requests and responses *)

(** A request: its method, and the query-string and form parameters. *)
Record Request := {
  method : string;
  args : gmap string string;
  form : gmap string string;
}.

(** [params.get(key, fallback)] *)
Definition get (params : gmap string string) (key fallback : string) : string :=
  default fallback (params !! key).

(** What a view hands back to the client. *)
Inductive Response :=
| RenderHome (books : list (Z * Book)) (sort q : string) (message : option string)
| RenderAddAuthor (message : option string)
| RenderAddBook (authors : list (Z * Author)) (message : option string)
| Redirect (endpoint : string) (msg : string)
| NotFound
| InternalServerError (e : Exn).

(** An exception that leaves a view becomes a 500 response; nothing of the
    request's session is committed. *)
Definition unhandled (st : Store) (m : exc (Response * Store))
  : Response * Store :=
  match m with
  | Ok r => r
  | Raise e => (InternalServerError e, st)
  end.

(** ** The views of [app.py] *)

(** [home]: the listing with search and sorting. It reads the store and
    commits nothing. *)
Definition home (st : Store) (req : Request) : Response :=
  let sort := get (args req) "sort" "title" in
  let q := Text.strip (get (args req) "q" "") in
  let msg := Text.strip (get (args req) "msg" "") in
  let query := DB.join_author st in
  let query :=
    if Text.truthy q
    then filter (λ r, DB.row_matches ("%" +:+ q +:+ "%") r = true) query
    else query in
  let books :=
    if String.eqb sort "author"
    then DB.order_by DB.by_author_title query
    else DB.order_by DB.by_title query in
  let message :=
    if Text.truthy q && bool_decide (length books = 0%nat)
    then Some ("No books match: '" +:+ q +:+ "'")
    else None in
  let message := if Text.truthy msg then Some msg else message in
  RenderHome (DB.entity <$> books) sort q message.

(** [add_author] *)
Definition add_author (st : Store) (req : Request) : Response * Store :=
  if String.eqb (method req) "POST" then
    let name := Text.strip (get (form req) "name" "") in
    let birth_date_raw := Text.strip (get (form req) "birth_date" "") in
    let date_of_death_raw := Text.strip (get (form req) "date_of_death" "") in
    unhandled st (
      birth_date ←
        (if Text.truthy birth_date_raw
         then Some <$> PyDate.fromisoformat birth_date_raw
         else mret None);
      date_of_death ←
        (if Text.truthy date_of_death_raw
         then Some <$> PyDate.fromisoformat date_of_death_raw
         else mret None);
      if negb (Text.truthy name) then
        mret (RenderAddAuthor (Some "Name is required."), st)
      else
        let author := {| name := name;
                         birth_date := birth_date;
                         date_of_death := date_of_death |} in
        mret (RenderAddAuthor
                (Some ("Author '" +:+ name +:+ "' added successfully.")),
              DB.insert_author st author))
  else (RenderAddAuthor None, st).

(** [add_book]. [foreign_keys] is the database setting of [DB.insert_book]. *)
Definition add_book (foreign_keys : bool) (st : Store) (req : Request)
  : Response * Store :=
  let authors_list := DB.order_by DB.by_name (map_to_list (authors st)) in
  if String.eqb (method req) "POST" then
    let isbn := Text.strip (get (form req) "isbn" "") in
    let title := Text.strip (get (form req) "title" "") in
    let publication_year_raw :=
      Text.strip (get (form req) "publication_year" "") in
    let author_id_raw := Text.strip (get (form req) "author_id" "") in
    if negb (Text.truthy isbn) || negb (Text.truthy title)
       || negb (Text.truthy author_id_raw) then
      (RenderAddBook authors_list
         (Some "ISBN, Title, and Author are required."), st)
    else
      unhandled st (
        publication_year ←
          (if Text.truthy publication_year_raw
           then Some <$> Py.int publication_year_raw
           else mret None);
        author_id ← Py.int author_id_raw;
        let book := {| isbn := isbn;
                       title := title;
                       publication_year := publication_year;
                       author_id := author_id |} in
        match DB.insert_book foreign_keys st book with
        | Ok st' =>
            mret (RenderAddBook authors_list
                    (Some ("Book '" +:+ title +:+ "' added successfully.")),
                  st')
        | Raise IntegrityError =>
            mret (RenderAddBook authors_list
                    (Some ("ISBN '" +:+ isbn +:+
                           "' already exists. Please use a unique ISBN or edit the existing book.")),
                  st)
        | Raise e => Raise e
        end)
  else (RenderAddBook authors_list None, st).

(** [delete_book]: delete the book and, when no book of its author is
    left, the author. [get_or_404] answers not-found when the lookup
    finds no row; an exception of the lookup leaves the view. *)
Definition delete_book (st : Store) (book_id : Z) : Response * Store :=
  match DB.get_book st book_id with
  | Raise e => (InternalServerError e, st)
  | Ok None => (NotFound, st)
  | Ok (Some book) =>
      let author_id := author_id book in
      let st := DB.delete_book_row st book_id in
      let remaining := DB.count_books_by_author st author_id in
      let st :=
        if bool_decide (remaining = 0%nat) then
          match authors st !! author_id with
          | Some _ => DB.delete_author_row st author_id
          | None => st
          end
        else st in
      (Redirect "home" ("Deleted book '" +:+ title book +:+ "'."), st)
  end.

(** ** Sequences of operations *)

Inductive Op :=
| OpAddAuthor (req : Request)
| OpAddBook (req : Request)
| OpDeleteBook (book_id : Z)
| OpListBooks (req : Request).

(** The store after one operation. *)
Definition run_op (foreign_keys : bool) (st : Store) (op : Op) : Store :=
  match op with
  | OpAddAuthor req => (add_author st req).2
  | OpAddBook req => (add_book foreign_keys st req).2
  | OpDeleteBook book_id => (delete_book st book_id).2
  | OpListBooks req => let _ := home st req in st
  end.

(** The store after a sequence of operations, first to last. *)
Definition run_ops (foreign_keys : bool) (st : Store) (ops : list Op) : Store :=
  foldl (run_op foreign_keys) st ops.

(** * Vocabulary of the properties *)

(** ** Form fields, messages and outcomes *)

(** [request.form.get(key, "").strip()] *)
Definition field (req : Request) (key : string) : string :=
  Text.strip (get (form req) key "").

(** The optional integer field of [add_book]:
    [int(raw) if raw else None]. *)
Definition optional_int (raw : string) : exc (option Z) :=
  if Text.truthy raw then Some <$> Py.int raw else mret None.

(** The optional date field of [add_author]:
    [date.fromisoformat(raw) if raw else None]. *)
Definition optional_date (raw : string) : exc (option Date) :=
  if Text.truthy raw then Some <$> PyDate.fromisoformat raw else mret None.

(** The three messages of [add_book] and the two of [add_author]. *)
Definition book_required_message : string :=
  "ISBN, Title, and Author are required.".
Definition book_added_message (title : string) : string :=
  "Book '" +:+ title +:+ "' added successfully.".
Definition isbn_conflict_message (isbn : string) : string :=
  "ISBN '" +:+ isbn +:+
  "' already exists. Please use a unique ISBN or edit the existing book.".
Definition name_required_message : string := "Name is required.".
Definition author_added_message (name : string) : string :=
  "Author '" +:+ name +:+ "' added successfully.".

(** The response is the add-book page with this message. *)
Definition add_book_says (r : Response) (message : string) : Prop :=
  ∃ authors_list, r = RenderAddBook authors_list (Some message).

(** The response is the add-author page with one of its two messages. *)
Definition add_author_page (r : Response) : Prop :=
  ∃ message, r = RenderAddAuthor message.

(** A date field that is given and that [date.fromisoformat] rejects. *)
Definition malformed_date (raw : string) : Prop :=
  raw ≠ "" ∧ PyDate.fromisoformat raw = Raise ValueError.

(** A date field that is left empty or that [date.fromisoformat]
    accepts. *)
Definition wellformed_date (raw : string) : Prop :=
  raw = "" ∨ ∃ d, PyDate.fromisoformat raw = Ok d.

(** The outcomes of [add_book] on a POST request, by the path taken. *)
Inductive add_book_outcome (foreign_keys : bool) (st : Store) (req : Request)
  : Response * Store → Prop :=
| AddBookMissing l :
    field req "isbn" = "" ∨ field req "title" = ""
    ∨ field req "author_id" = "" →
    add_book_outcome foreign_keys st req
      (RenderAddBook l (Some book_required_message), st)
| AddBookBadYear :
    field req "isbn" ≠ "" → field req "title" ≠ "" →
    field req "author_id" ≠ "" →
    field req "publication_year" ≠ "" →
    Py.int (field req "publication_year") = Raise ValueError →
    add_book_outcome foreign_keys st req (InternalServerError ValueError, st)
| AddBookBadAuthor y :
    field req "isbn" ≠ "" → field req "title" ≠ "" →
    field req "author_id" ≠ "" →
    optional_int (field req "publication_year") = Ok y →
    Py.int (field req "author_id") = Raise ValueError →
    add_book_outcome foreign_keys st req (InternalServerError ValueError, st)
| AddBookRejected l y a :
    field req "isbn" ≠ "" → field req "title" ≠ "" →
    field req "author_id" ≠ "" →
    optional_int (field req "publication_year") = Ok y →
    Py.int (field req "author_id") = Ok a →
    DB.isbn_taken (books st) (field req "isbn")
    ∨ (foreign_keys = true ∧ authors st !! a = None) →
    DB.int64_or_null y = true → DB.int64 a = true →
    add_book_outcome foreign_keys st req
      (RenderAddBook l (Some (isbn_conflict_message (field req "isbn"))), st)
| AddBookStored l y a :
    field req "isbn" ≠ "" → field req "title" ≠ "" →
    field req "author_id" ≠ "" →
    optional_int (field req "publication_year") = Ok y →
    Py.int (field req "author_id") = Ok a →
    ¬ DB.isbn_taken (books st) (field req "isbn") →
    (foreign_keys = true → is_Some (authors st !! a)) →
    DB.int64_or_null y = true → DB.int64 a = true →
    add_book_outcome foreign_keys st req
      (RenderAddBook l (Some (book_added_message (field req "title"))),
       {| authors := authors st;
          books := <[DB.next_id (books st) :=
                      {| isbn := field req "isbn";
                         title := field req "title";
                         publication_year := y;
                         author_id := a |}]> (books st) |})
| AddBookOverflow y a :
    field req "isbn" ≠ "" → field req "title" ≠ "" →
    field req "author_id" ≠ "" →
    optional_int (field req "publication_year") = Ok y →
    Py.int (field req "author_id") = Ok a →
    DB.int64_or_null y = false ∨ DB.int64 a = false →
    add_book_outcome foreign_keys st req (InternalServerError OverflowError, st).

(** The outcomes of [add_author] on a POST request, by the path taken. *)
Inductive add_author_outcome (st : Store) (req : Request)
  : Response * Store → Prop :=
| AddAuthorBadDate :
    malformed_date (field req "birth_date")
    ∨ malformed_date (field req "date_of_death") →
    add_author_outcome st req (InternalServerError ValueError, st)
| AddAuthorNoName bd dd :
    optional_date (field req "birth_date") = Ok bd →
    optional_date (field req "date_of_death") = Ok dd →
    field req "name" = "" →
    add_author_outcome st req
      (RenderAddAuthor (Some name_required_message), st)
| AddAuthorStored bd dd :
    optional_date (field req "birth_date") = Ok bd →
    optional_date (field req "date_of_death") = Ok dd →
    field req "name" ≠ "" →
    add_author_outcome st req
      (RenderAddAuthor (Some (author_added_message (field req "name"))),
       DB.insert_author st {| name := field req "name";
                              birth_date := bd;
                              date_of_death := dd |}).

(** ** Invariant and listing *)

(** No two books of the store share an ISBN. *)
Definition isbn_unique (st : Store) : Prop :=
  ∀ i j b1 b2,
    books st !! i = Some b1 → books st !! j = Some b2 →
    isbn b1 = isbn b2 → i = j.

(** [request.args.get("q", "").strip()] *)
Definition search_text (req : Request) : string :=
  Text.strip (get (args req) "q" "").

(** The LIKE pattern that [home] builds from the search text [q],
    [%q%], is within SQLite's limit of 50 000 bytes for a LIKE pattern. *)
Definition within_like_limit (q : string) : Prop :=
  Z.of_nat (String.length q) + 2 ≤ 50000.

(** The rows [home] selects: the join, filtered when there is a search
    text. *)
Definition selected (st : Store) (q : string) : list DB.Row :=
  if Text.truthy q
  then filter (λ r, DB.row_matches ("%" +:+ q +:+ "%") r = true)
              (DB.join_author st)
  else DB.join_author st.

(** The order [home] puts rows in. *)
Definition ordered (sort : string) (rows : list DB.Row) : list DB.Row :=
  if String.eqb sort "author"
  then DB.order_by DB.by_author_title rows
  else DB.order_by DB.by_title rows.

(** The books a response lists. *)
Definition listed (r : Response) : list (Z * Book) :=
  match r with
  | RenderHome books _ _ _ => books
  | _ => []
  end.

(** The message a response shows. *)
Definition shown (r : Response) : option string :=
  match r with
  | RenderHome _ _ _ message => message
  | RenderAddAuthor message => message
  | RenderAddBook _ message => message
  | Redirect _ msg => Some msg
  | NotFound | InternalServerError _ => None
  end.

(** The plain listing request: no parameter given. *)
Definition list_all : Request :=
  {| method := "GET"; args := ∅; form := ∅ |}.




(** The search filter of [home] matches no book of the store. *)
Definition no_book_matches (st : Store) (q : string) : Prop :=
  ∀ k b a,
    books st !! k = Some b → authors st !! author_id b = Some a →
    DB.row_matches ("%" +:+ q +:+ "%") (k, b, a) = false.

(** [q] occurs, up to case, in the title, the ISBN or the author name. *)
Definition occurs_in_book (q : string) (b : Book) (a : Author) : Prop :=
  Text.ci_substring q (title b) ∨ Text.ci_substring q (isbn b)
  ∨ Text.ci_substring q (name a).

(** [q] occurs, up to case, in the title, the ISBN or the author name, each
    read up to its first NUL character. *)
Definition found_in_book (q : string) (b : Book) (a : Author) : Prop :=
  Text.ci_substring q (Text.c_str (title b))
  ∨ Text.ci_substring q (Text.c_str (isbn b))
  ∨ Text.ci_substring q (Text.c_str (name a)).

(** Python's [p in s] on text. *)
Fixpoint starts_with (p s : string) : bool :=
  match p, s with
  | EmptyString, _ => true
  | String _ _, EmptyString => false
  | String c p', String d s' => Ascii.eqb c d && starts_with p' s'
  end.

Fixpoint occurs (p s : string) : bool :=
  starts_with p s
  || match s with
     | EmptyString => false
     | String _ s' => occurs p s'
     end.

(** ** Sample data *)

Definition adams : Author :=
  {| name := "Adams"; birth_date := None; date_of_death := None |}.
Definition baker : Author :=
  {| name := "Baker"; birth_date := None; date_of_death := None |}.
Definition zoo : Book :=
  {| isbn := "111"; title := "Zoo"; publication_year := Some 1999;
     author_id := 1 |}.
Definition alpha : Book :=
  {| isbn := "222"; title := "Alpha"; publication_year := None;
     author_id := 1 |}.
Definition beta : Book :=
  {| isbn := "333"; title := "Beta"; publication_year := Some 2005;
     author_id := 2 |}.

(** Two authors and three books, the books of the sorting example of the
    specification. *)
Definition library : Store :=
  {| authors := <[1 := adams]> (<[2 := baker]> ∅);
     books := <[1 := zoo]> (<[2 := alpha]> (<[3 := beta]> ∅)) |}.

Definition empty_store : Store := {| authors := ∅; books := ∅ |}.

(** One book whose author row is missing. *)
Definition orphan : Book :=
  {| isbn := "999"; title := "Dune"; publication_year := Some 1965;
     author_id := 7 |}.
Definition orphan_store : Store :=
  {| authors := ∅; books := <[1 := orphan]> ∅ |}.

(** A GET request with query-string parameters. *)
Definition get_request (params : list (string * string)) : Request :=
  {| method := "GET"; args := list_to_map params; form := ∅ |}.

(** A POST request with form fields. *)
Definition post_request (fields : list (string * string)) : Request :=
  {| method := "POST"; args := ∅; form := list_to_map fields |}.

(** A second book with the ISBN of [zoo] and no title. *)
Definition untitled_duplicate : Request :=
  post_request [("isbn", "111"); ("title", ""); ("author_id", "1")].

(** A search for one blank, and a search for one underscore. *)
Definition blank_search : Request := get_request [("q", " ")].
Definition underscore_search : Request := get_request [("q", "_")].

(** A search for a NUL character followed by three letters. *)
Definition nul_search : Request :=
  get_request [("q", String Text.nul "zzz")].

(** The first integer that does not fit in 64 bits. *)
Definition two_to_63 : Z := 9223372036854775808.

(** An author without a name and with a birth date that is no date. *)
Definition nameless_misdated : Request :=
  post_request [("name", ""); ("birth_date", "yesterday")].

(** An author with a birth date in day/month/year form. *)
Definition misdated : Request :=
  post_request [("name", "Ursula"); ("birth_date", "21/10/1929")].

(** ** Invariants of the life cycle *)

(** Every book refers to an author of the store. *)
Definition ref_integrity (st : Store) : Prop :=
  ∀ k b, books st !! k = Some b → is_Some (authors st !! author_id b).

(** Every author of the store has at least one book. *)
Definition every_author_has_book (st : Store) : Prop :=
  ∀ a au, authors st !! a = Some au →
          ∃ k b, books st !! k = Some b ∧ author_id b = a.

(** The author list [add_book] hands to its form:
    [Author.query.order_by(Author.name.asc()).all()]. *)
Definition form_authors (st : Store) : list (Z * Author) :=
  DB.order_by DB.by_name (map_to_list (authors st)).

(** ** Further sample requests *)

(** A new book of Baker. *)
Definition gamma_request : Request :=
  post_request [("isbn", "444"); ("title", "Gamma");
                ("publication_year", "2001"); ("author_id", "2")].

(** A book without an author. *)
Definition authorless_request : Request :=
  post_request [("isbn", "444"); ("title", "Gamma"); ("author_id", "  ")].

(** A book whose author is given by name instead of by key. *)
Definition named_author_request : Request :=
  post_request [("isbn", "444"); ("title", "Gamma"); ("author_id", "Baker")].

(** A book of an author that is not in the sample library. *)
Definition unknown_author_request : Request :=
  post_request [("isbn", "444"); ("title", "Gamma"); ("author_id", "9")].

(** A new author. *)
Definition clarke_request : Request :=
  post_request [("name", "Clarke"); ("birth_date", "1917-12-16")].

(** The text is made of 7-bit characters. *)
Fixpoint seven_bit (s : string) : bool :=
  match s with
  | EmptyString => true
  | String c s' => (N_of_ascii c <? 128)%N && seven_bit s'
  end.

(** Every title, ISBN and author name of the store is 7-bit text. *)
Definition ascii_store (st : Store) : Prop :=
  map_Forall (λ _ b, seven_bit (title b) = true ∧ seven_bit (isbn b) = true)
             (books st)
  ∧ map_Forall (λ _ a, seven_bit (name a) = true) (authors st).

(** The text of [n] copies of one character. *)
Fixpoint repeat_char (c : ascii) (n : nat) : string :=
  match n with
  | O => EmptyString
  | S n' => String c (repeat_char c n')
  end.

(** * Properties *)

(** ** The store *)

Section store_facts.

Lemma next_id_above {A} (m : gmap Z A) k :
  is_Some (m !! k) → k < DB.next_id m.
Proof.
  unfold DB.next_id. revert k.
  apply (map_fold_weak_ind
           (λ r (m : gmap Z A), ∀ k, is_Some (m !! k) → k < r)).
  - intros k [x Hx]. by rewrite lookup_empty in Hx.
  - intros i x m' r _ IH k Hk.
    destruct (decide (i = k)) as [->|Hne]; [lia|].
    rewrite lookup_insert_ne in Hk by done.
    specialize (IH k Hk). lia.
Qed.

(** A new row never takes the key of an existing one. *)
Lemma next_id_fresh {A} (m : gmap Z A) : m !! DB.next_id m = None.
Proof.
  destruct (m !! DB.next_id m) eqn:E; [|done].
  assert (DB.next_id m < DB.next_id m) by (apply next_id_above; eauto).
  lia.
Qed.

(** The count of an author's books is zero exactly when no book refers to
    the author. *)
Lemma count_books_zero st aid :
  DB.count_books_by_author st aid = 0%nat
  ↔ ∀ k b, books st !! k = Some b → author_id b ≠ aid.
Proof.
  unfold DB.count_books_by_author.
  rewrite map_size_empty_iff, map_empty. split.
  - intros H k b Hk Ha.
    specialize (H k).
    assert (filter (λ kb : Z * Book, author_id kb.2 = aid) (books st) !! k
            = Some b) as Hf by (by apply map_lookup_filter_Some).
    congruence.
  - intros H k.
    destruct (filter _ (books st) !! k) as [b|] eqn:E; [|done].
    apply map_lookup_filter_Some in E as [Hk Ha]. by destruct (H k b Hk).
Qed.

Lemma get_book_found st book_id book :
  books st !! book_id = Some book → DB.get_book st book_id = Ok (Some book).
Proof. intros Hb. unfold DB.get_book. by rewrite Hb. Qed.

Lemma get_book_absent st book_id :
  books st !! book_id = None →
  DB.get_book st book_id
  = if DB.int64 book_id then Ok None else Raise OverflowError.
Proof. intros Hb. unfold DB.get_book. by rewrite Hb. Qed.

End store_facts.

(** ** Deleting a book *)

(** C1. [delete_book] on the key of an existing book redirects with the
    confirmation, removes exactly that book, and then looks at the books
    left to the author: when none is left the author row is removed too,
    when one is left the authors table is as before. On a key that belongs
    to no book the store is unchanged; the answer is not-found when the
    key is an integer of 64 bits, and the unhandled [OverflowError] of the
    lookup when it is not. *)
Theorem delete_book_cascade (st : Store) (book_id : Z) :
  (∀ book, books st !! book_id = Some book →
     ∃ st',
       delete_book st book_id
       = (Redirect "home" ("Deleted book '" +:+ title book +:+ "'."), st')
       ∧ books st' = delete book_id (books st)
       ∧ ((∀ k b, books st' !! k = Some b → author_id b ≠ author_id book) →
            authors st' = delete (author_id book) (authors st)
            ∧ authors st' !! author_id book = None)
       ∧ ((∃ k b, books st' !! k = Some b ∧ author_id b = author_id book) →
            authors st' = authors st))
  ∧ (books st !! book_id = None →
     (DB.int64 book_id = true → delete_book st book_id = (NotFound, st))
     ∧ (DB.int64 book_id = false →
        delete_book st book_id = (InternalServerError OverflowError, st))).
Proof.
  split.
  - intros book Hb. unfold delete_book. rewrite (get_book_found _ _ _ Hb).
    set (st1 := DB.delete_book_row st book_id).
    eexists. split; [reflexivity|].
    case_bool_decide as Hc.
    + pose proof (proj1 (count_books_zero _ _) Hc) as Hz.
      assert (authors (match authors st1 !! author_id book with
                       | Some _ => DB.delete_author_row st1 (author_id book)
                       | None => st1
                       end) = delete (author_id book) (authors st)
              ∧ books (match authors st1 !! author_id book with
                       | Some _ => DB.delete_author_row st1 (author_id book)
                       | None => st1
                       end) = delete book_id (books st)) as [Ha Hbk].
      { destruct (authors st1 !! author_id book) eqn:E; simpl; [done|].
        split; [|done]. symmetry. by apply delete_id. }
      rewrite Ha, Hbk. split; [done|]. split.
      * intros _. split; [done|]. apply lookup_delete_eq.
      * intros (k & b & Hk & Hab). by destruct (Hz k b Hk).
    + simpl. split; [done|]. split; [|done].
      intros Hnone. destruct Hc. by apply count_books_zero.
  - intros Hb. unfold delete_book. rewrite (get_book_absent _ _ Hb).
    split; by intros ->.
Qed.

(** C10. When the deleted book was the last one of its author and the
    author row is already missing, [delete_book] still succeeds: only the
    book is removed, and the redirect carries the confirmation with the
    book's title. *)
Theorem delete_book_author_absent (st : Store) (book_id : Z) (book : Book) :
  books st !! book_id = Some book →
  (∀ k b, k ≠ book_id → books st !! k = Some b →
          author_id b ≠ author_id book) →
  authors st !! author_id book = None →
  delete_book st book_id
  = (Redirect "home" ("Deleted book '" +:+ title book +:+ "'."),
     DB.delete_book_row st book_id)
  ∧ Text.substring_of (title book)
      ("Deleted book '" +:+ title book +:+ "'.").
Proof.
  intros Hb Hlast Habs. split.
  - unfold delete_book. rewrite (get_book_found _ _ _ Hb).
    rewrite bool_decide_eq_true_2.
    + simpl. by rewrite Habs.
    + apply count_books_zero. simpl. intros k b Hk.
      apply lookup_delete_Some in Hk as [Hne Hk]. eauto.
  - by exists "Deleted book '", "'.".
Qed.

(** ** What a request stores *)

Section request_facts.

Lemma truthy_false s : Text.truthy s = false ↔ s = "".
Proof. destruct s; split; intros; simplify_eq/=; done. Qed.

Lemma truthy_true s : Text.truthy s = true ↔ s ≠ "".
Proof. destruct s; split; intros; simplify_eq/=; done. Qed.

Lemma method_post req : String.eqb (method req) "POST" = true ↔ method req = "POST".
Proof. apply String.eqb_eq. Qed.

(** The parsers raise [ValueError] and nothing else. *)
Lemma int_raises s e : Py.int s = Raise e → e = ValueError.
Proof.
  unfold Py.int. destruct (_ <? _); [congruence|].
  destruct (Py.int_signed _); congruence.
Qed.

Lemma optional_int_raises raw e :
  optional_int raw = Raise e →
  e = ValueError ∧ raw ≠ "" ∧ Py.int raw = Raise ValueError.
Proof.
  unfold optional_int. destruct (Text.truthy raw) eqn:Hr; [|done].
  apply truthy_true in Hr.
  destruct (Py.int raw) as [z|e'] eqn:Hp; simpl; [done|].
  intros [= <-]. by rewrite (int_raises _ _ Hp) in *.
Qed.

Lemma add_book_post foreign_keys st req :
  method req = "POST" →
  add_book_outcome foreign_keys st req (add_book foreign_keys st req).
Proof.
  intros Hm. unfold add_book. rewrite (proj2 (method_post req) Hm).
  fold (field req "isbn") (field req "title") (field req "author_id")
       (field req "publication_year").
  destruct (Text.truthy (field req "isbn")) eqn:Hi; simpl;
    [|constructor; left; by apply truthy_false].
  destruct (Text.truthy (field req "title")) eqn:Ht; simpl;
    [|constructor; right; left; by apply truthy_false].
  destruct (Text.truthy (field req "author_id")) eqn:Ha; simpl;
    [|constructor; right; right; by apply truthy_false].
  apply truthy_true in Hi, Ht, Ha.
  fold (optional_int (field req "publication_year")).
  destruct (optional_int (field req "publication_year")) as [y|e] eqn:Hy;
    simpl.
  - destruct (Py.int (field req "author_id")) as [a|e] eqn:Hp; simpl.
    + unfold DB.insert_book; simpl.
      destruct (DB.int64_or_null y) eqn:Hy64; simpl;
        [|eapply AddBookOverflow; eauto].
      destruct (DB.int64 a) eqn:Ha64; simpl;
        [|eapply AddBookOverflow; eauto].
      destruct (decide (DB.isbn_taken _ _)) as [Hk|Hk]; simpl;
        [eapply AddBookRejected; eauto|].
      destruct foreign_keys; simpl.
      * case_bool_decide as Hfk; simpl.
        -- eapply AddBookStored; eauto.
        -- eapply AddBookRejected; eauto. right. split; [done|].
           by apply eq_None_not_Some.
      * eapply AddBookStored; eauto. done.
    + pose proof (int_raises _ _ Hp). subst e.
      eapply AddBookBadAuthor; eauto.
  - apply optional_int_raises in Hy as (-> & Hr & Hp). by apply AddBookBadYear.
Qed.

Lemma add_book_not_post foreign_keys st req :
  method req ≠ "POST" → (add_book foreign_keys st req).2 = st.
Proof.
  intros Hm. unfold add_book.
  destruct (String.eqb_spec (method req) "POST"); [done|]. done.
Qed.

(** The books table after [add_book]: as before, or with one new row
    under a fresh key whose ISBN was not in the table. *)
Lemma add_book_books foreign_keys st req :
  let st' := (add_book foreign_keys st req).2 in
  authors st' = authors st
  ∧ (books st' = books st
     ∨ ∃ b, ¬ DB.isbn_taken (books st) (isbn b)
            ∧ books st' = <[DB.next_id (books st) := b]> (books st)).
Proof.
  destruct (decide (method req = "POST")) as [Hm|Hm].
  - destruct (add_book_post foreign_keys st req Hm); simpl; eauto.
    split; [done|]. right. eexists. split; [|done]. done.
  - simpl. rewrite add_book_not_post by done. eauto.
Qed.

(** [add_author] never touches the books table. *)
Lemma add_author_books st req : books (add_author st req).2 = books st.
Proof.
  unfold add_author.
  destruct (String.eqb (method req) "POST"); [|done].
  destruct (if Text.truthy (Text.strip (get (form req) "birth_date" "")) then _ else _)
    as [bd|e]; simpl; [|done].
  destruct (if Text.truthy (Text.strip (get (form req) "date_of_death" "")) then _ else _)
    as [dd|e]; simpl; [|done].
  by destruct (negb _).
Qed.

(** The books table after [delete_book]: the table without the key. *)
Lemma delete_book_books st book_id :
  books (delete_book st book_id).2 = delete book_id (books st).
Proof.
  unfold delete_book.
  destruct (books st !! book_id) as [book|] eqn:E.
  - rewrite (get_book_found _ _ _ E). simpl.
    case_bool_decide; [|done].
    by destruct (authors st !! author_id book).
  - rewrite (get_book_absent _ _ E).
    destruct (DB.int64 book_id); simpl; symmetry; by apply delete_id.
Qed.

End request_facts.

(** ** ISBN uniqueness *)

Section isbn_invariant.

Variable foreign_keys : bool.

Lemma isbn_unique_books st st' :
  books st' = books st → isbn_unique st → isbn_unique st'.
Proof. unfold isbn_unique. intros ->. done. Qed.

Lemma isbn_unique_insert st st' b :
  ¬ DB.isbn_taken (books st) (isbn b) →
  books st' = <[DB.next_id (books st) := b]> (books st) →
  isbn_unique st → isbn_unique st'.
Proof.
  intros Hfree Hb Hu i j b1 b2. rewrite Hb.
  assert (∀ k b', books st !! k = Some b' → isbn b' ≠ isbn b) as Hne.
  { intros k b' Hk Hi. apply Hfree. by apply (map_Exists_lookup_2 _ _ k b'). }
  intros [[-> ->]|[Hi H1]]%lookup_insert_Some
         [[<- ->]|[Hj H2]]%lookup_insert_Some Heq.
  - done.
  - by destruct (Hne _ _ H2).
  - by destruct (Hne _ _ H1).
  - by apply (Hu i j b1 b2).
Qed.

Lemma isbn_unique_delete st st' k :
  books st' = delete k (books st) → isbn_unique st → isbn_unique st'.
Proof.
  intros Hb Hu i j b1 b2. rewrite Hb.
  intros [_ H1]%lookup_delete_Some [_ H2]%lookup_delete_Some.
  by apply Hu.
Qed.

(** One operation keeps the ISBNs distinct. *)
Lemma run_op_isbn_unique st op :
  isbn_unique st → isbn_unique (run_op foreign_keys st op).
Proof.
  intros Hu. destruct op as [req|req|book_id|req]; simpl.
  - eapply isbn_unique_books; [apply add_author_books|done].
  - destruct (add_book_books foreign_keys st req) as [_ [Hb|(b & Hfree & Hb)]].
    + by eapply isbn_unique_books.
    + by eapply isbn_unique_insert.
  - eapply isbn_unique_delete; [apply delete_book_books|done].
  - done.
Qed.

End isbn_invariant.

(** C8. Starting from a store whose books have pairwise distinct ISBNs,
    every store reached by a sequence of [add_author], [add_book],
    [delete_book] and listing operations has pairwise distinct ISBNs. *)
Theorem reachable_isbn_unique (foreign_keys : bool) (st : Store)
    (ops : list Op) :
  isbn_unique st → isbn_unique (run_ops foreign_keys st ops).
Proof.
  unfold run_ops. revert st.
  induction ops as [|op ops IH]; intros st Hu; simpl; [done|].
  apply IH. by apply run_op_isbn_unique.
Qed.

(** ** Text: case folding and LIKE patterns *)

Section text_facts.

Lemma app_nil s : "" +:+ s = s.
Proof. reflexivity. Qed.

Lemma app_cons c s t : String c s +:+ t = String c (s +:+ t).
Proof. reflexivity. Qed.

Lemma app_nil_r s : s +:+ "" = s.
Proof. induction s as [|c s IH]; [done|]. by rewrite app_cons, IH. Qed.

Lemma app_assoc s t u : (s +:+ t) +:+ u = s +:+ (t +:+ u).
Proof. induction s as [|c s IH]; [done|]. by rewrite !app_cons, IH. Qed.

Lemma lower_ascii_idemp c :
  Text.lower_ascii (Text.lower_ascii c) = Text.lower_ascii c.
Proof. by destruct c as [[] [] [] [] [] [] [] []]. Qed.

Lemma lower_idemp s : Text.lower (Text.lower s) = Text.lower s.
Proof.
  induction s as [|c s IH]; simpl; [done|].
  by rewrite lower_ascii_idemp, IH.
Qed.

Lemma lower_app s t : Text.lower (s +:+ t) = Text.lower s +:+ Text.lower t.
Proof.
  induction s as [|c s IH]; [done|].
  rewrite app_cons. simpl. by rewrite IH.
Qed.

(** Case folding neither makes nor removes a wildcard. *)
Lemma lower_ascii_percent c :
  Ascii.eqb (Text.lower_ascii c) Text.percent = Ascii.eqb c Text.percent.
Proof. by destruct c as [[] [] [] [] [] [] [] []]. Qed.

Lemma lower_ascii_underscore c :
  Ascii.eqb (Text.lower_ascii c) Text.underscore
  = Ascii.eqb c Text.underscore.
Proof. by destruct c as [[] [] [] [] [] [] [] []]. Qed.

Lemma wildcard_free_lower q :
  Text.wildcard_free (Text.lower q) = Text.wildcard_free q.
Proof.
  induction q as [|c q IH]; simpl; [done|].
  by rewrite lower_ascii_percent, lower_ascii_underscore, IH.
Qed.

(** One step of the [%] wildcard: it matches the empty run, or it
    swallows one more character. *)
Lemma like_percent_step p t :
  Text.like (String Text.percent p) t
  = Text.like p t
    || match t with
       | EmptyString => false
       | String _ t' => Text.like (String Text.percent p) t'
       end.
Proof. by destruct t. Qed.

(** [%p] matches the texts that have a suffix matched by [p]. *)
Lemma like_percent p t :
  Text.like (String Text.percent p) t = true
  ↔ ∃ pre post, t = pre +:+ post ∧ Text.like p post = true.
Proof.
  induction t as [|c t IH]; rewrite like_percent_step.
  - rewrite orb_false_r. split.
    + intros H. by exists "", "".
    + intros (pre & post & Ht & H). by destruct pre, post.
  - rewrite orb_true_iff, IH. split.
    + intros [H|(pre & post & -> & H)].
      * by exists "", (String c t).
      * by exists (String c pre), post.
    + intros (pre & post & Ht & H). destruct pre as [|d pre].
      * left. rewrite app_nil in Ht. by subst.
      * right. rewrite app_cons in Ht. simplify_eq. eauto.
Qed.

(** A lone [%] matches every text. *)
Lemma like_percent_all t : Text.like (String Text.percent "") t = true.
Proof.
  apply like_percent. exists t, "". by rewrite app_nil_r.
Qed.

(** A pattern without wildcards, followed by [%], matches the texts that
    start with the pattern up to case. *)
Lemma like_prefix p t :
  Text.wildcard_free p = true →
  Text.like (p +:+ String Text.percent "") t = true
  ↔ ∃ t1 t2, t = t1 +:+ t2 ∧ Text.lower t1 = Text.lower p.
Proof.
  revert t. induction p as [|c p IH]; intros t Hw.
  - rewrite app_nil. split.
    + intros _. by exists "", t.
    + intros _. apply like_percent_all.
  - simpl in Hw. apply andb_true_iff in Hw as [Hc Hw].
    apply andb_true_iff in Hc as [Hc1 Hc2].
    apply negb_true_iff in Hc1, Hc2.
    rewrite app_cons. simpl. rewrite Hc1, Hc2. simpl.
    destruct t as [|d t].
    + split; [done|]. intros (t1 & t2 & Ht & Hl).
      destruct t1; simplify_eq/=.
    + rewrite andb_true_iff, (IH t Hw), Ascii.eqb_eq. split.
      * intros [Hcd (t1 & t2 & -> & Hl)].
        exists (String d t1), t2. split; [done|]. simpl. congruence.
      * intros (t1 & t2 & Ht & Hl). destruct t1 as [|e t1]; [done|].
        rewrite app_cons in Ht. simplify_eq/=. eauto.
Qed.

(** [%p%] for a pattern without wildcards: [p] occurs in the text, up to
    case. *)
Lemma like_infix p t :
  Text.wildcard_free p = true →
  Text.like (String Text.percent (p +:+ String Text.percent "")) t = true
  ↔ ∃ pre t1 t2, t = pre +:+ t1 +:+ t2 ∧ Text.lower t1 = Text.lower p.
Proof.
  intros Hw. rewrite like_percent. split.
  - intros (pre & post & -> & H).
    apply like_prefix in H as (t1 & t2 & -> & Hl); [|done]. eauto.
  - intros (pre & t1 & t2 & -> & Hl).
    exists pre, (t1 +:+ t2). split; [done|].
    apply like_prefix; [done|]. eauto.
Qed.

(** The filter of [home] on one column, for a search text without
    wildcards: the text occurs in the column, up to case. *)
Lemma lower_ascii_nul c :
  Ascii.eqb (Text.lower_ascii c) Text.nul = Ascii.eqb c Text.nul.
Proof. by destruct c as [[] [] [] [] [] [] [] []]. Qed.

Lemma nul_free_lower s : Text.nul_free (Text.lower s) = Text.nul_free s.
Proof.
  induction s as [|c s IH]; simpl; [done|]. by rewrite lower_ascii_nul, IH.
Qed.

(** Reading as a C string commutes with case folding. *)
Lemma c_str_lower s : Text.c_str (Text.lower s) = Text.lower (Text.c_str s).
Proof.
  induction s as [|c s IH]; simpl; [done|]. rewrite lower_ascii_nul.
  destruct (Ascii.eqb c Text.nul); simpl; [done|]. by rewrite IH.
Qed.

(** A text without NUL is read whole. *)
Lemma c_str_nul_free s : Text.nul_free s = true → Text.c_str s = s.
Proof.
  induction s as [|c s IH]; simpl; [done|].
  intros [Hc Hs]%andb_true_iff. apply negb_true_iff in Hc.
  by rewrite Hc, IH.
Qed.

Lemma nul_free_app s t :
  Text.nul_free (s +:+ t) = Text.nul_free s && Text.nul_free t.
Proof.
  induction s as [|c s IH]; [done|]. rewrite app_cons. simpl.
  by rewrite IH, andb_assoc.
Qed.

(** The pattern [home] builds from a search text without NUL is read
    whole. *)
Lemma c_str_pattern q :
  Text.nul_free q = true →
  Text.c_str (Text.lower ("%" +:+ q +:+ "%"))
  = String Text.percent (Text.lower q +:+ String Text.percent "").
Proof.
  intros Hq. rewrite c_str_nul_free.
  - rewrite app_cons, app_nil. simpl Text.lower. by rewrite lower_app.
  - rewrite nul_free_lower, app_cons, app_nil. simpl.
    by rewrite nul_free_app, Hq.
Qed.

Lemma ilike_substring q s :
  Text.wildcard_free q = true →
  Text.nul_free q = true →
  Text.ilike s ("%" +:+ q +:+ "%") = true
  ↔ Text.ci_substring q (Text.c_str s).
Proof.
  intros Hw Hn. unfold Text.ilike, Text.ci_substring.
  rewrite c_str_pattern by done.
  rewrite like_infix by (by rewrite wildcard_free_lower).
  rewrite lower_idemp, c_str_lower. split.
  - intros (pre & t1 & t2 & Hs & Hl).
    exists (Text.lower pre), (Text.lower t2).
    rewrite <- Hl, <- !lower_app, <- Hs. by rewrite lower_idemp.
  - intros (pre & post & Hs).
    exists pre, (Text.lower q), post. by rewrite lower_idemp.
Qed.

End text_facts.

(** ** The listing *)

Section listing_facts.

Lemma home_listed st req :
  listed (home st req)
  = DB.entity <$> ordered (get (args req) "sort" "title")
                          (selected st (Text.strip (get (args req) "q" ""))).
Proof.
  unfold home, ordered, selected. simpl.
  by destruct (String.eqb _ "author").
Qed.

Lemma ordered_Permutation sort rows : ordered sort rows ≡ₚ rows.
Proof.
  unfold ordered, DB.order_by.
  destruct (String.eqb sort "author"); apply merge_sort_Permutation.
Qed.

(** The rows of the join: the books whose author row exists, each with
    that author. *)
Lemma elem_of_join_author st k b a :
  (k, b, a) ∈ DB.join_author st
  ↔ books st !! k = Some b ∧ authors st !! author_id b = Some a.
Proof.
  unfold DB.join_author. rewrite list_elem_of_omap. split.
  - intros ([k' b'] & Hin & Hf). simpl in Hf.
    apply elem_of_map_to_list in Hin.
    destruct (authors st !! author_id b') as [a'|] eqn:E; simplify_eq/=.
    done.
  - intros [Hb Ha]. exists (k, b). split.
    + by apply elem_of_map_to_list.
    + simpl. by rewrite Ha.
Qed.

Lemma NoDup_omap_inj {A B} (f : A → option B) (l : list A) :
  (∀ x y z, f x = Some z → f y = Some z → x = y) →
  NoDup l → NoDup (omap f l).
Proof.
  intros Hinj. induction 1 as [|x l Hx Hl IH]; simpl; [constructor|].
  destruct (f x) as [z|] eqn:E; [|done].
  constructor; [|done].
  intros (y & Hy & Hfy)%list_elem_of_omap.
  by rewrite (Hinj x y z E Hfy) in Hx.
Qed.

Lemma NoDup_join_author st : NoDup (DB.join_author st).
Proof.
  apply NoDup_omap_inj; [|apply NoDup_map_to_list].
  intros [k1 b1] [k2 b2] z H1 H2. simpl in *.
  destruct (authors st !! author_id b1), (authors st !! author_id b2);
    simplify_eq/=. done.
Qed.

Lemma selected_subseteq st q r : r ∈ selected st q → r ∈ DB.join_author st.
Proof.
  unfold selected. destruct (Text.truthy q); [|done].
  by intros [_ ?]%list_elem_of_filter.
Qed.

Lemma NoDup_selected st q : NoDup (selected st q).
Proof.
  unfold selected. destruct (Text.truthy q).
  - apply NoDup_filter, NoDup_join_author.
  - apply NoDup_join_author.
Qed.


(** No book is listed twice. *)
Lemma NoDup_listed st req : NoDup (listed (home st req)).
Proof.
  rewrite home_listed.
  apply NoDup_fmap_2_strong.
  - intros [[k1 b1] a1] [[k2 b2] a2] H1 H2 He.
    rewrite ordered_Permutation in H1, H2.
    apply selected_subseteq, elem_of_join_author in H1 as [_ H1].
    apply selected_subseteq, elem_of_join_author in H2 as [_ H2].
    unfold DB.entity in He. simplify_eq/=. done.
  - rewrite ordered_Permutation. apply NoDup_selected.
Qed.

(** A book is listed exactly when its row is selected. *)
Lemma elem_of_listed st req k b :
  (k, b) ∈ listed (home st req)
  ↔ ∃ a, (k, b, a) ∈ selected st (Text.strip (get (args req) "q" "")).
Proof.
  rewrite home_listed, list_elem_of_fmap. split.
  - intros ([[k' b'] a] & He & Hin). unfold DB.entity in He.
    simplify_eq/=. exists a. by rewrite ordered_Permutation in Hin.
  - intros [a Hin]. exists (k, b, a). split; [done|].
    by rewrite ordered_Permutation.
Qed.

Global Instance by_title_trans : Transitive DB.by_title.
Proof. intros r1 r2 r3. unfold DB.by_title. apply transitivity. Qed.

Global Instance by_title_total : Total DB.by_title.
Proof. intros r1 r2. unfold DB.by_title. apply total, _. Qed.

Global Instance by_author_title_trans : Transitive DB.by_author_title.
Proof.
  intros r1 r2 r3. unfold DB.by_author_title.
  intros [[Hn12 Hl12]|[He12 Ht12]] [[Hn23 Hl23]|[He23 Ht23]].
  - left. split; [|by etrans].
    intros He. rewrite He in Hl12.
    apply Hn23. by apply (anti_symm String.le).
  - left. rewrite <- He23. done.
  - left. rewrite He12. done.
  - right. split; [congruence|by etrans].
Qed.

Global Instance by_author_title_total : Total DB.by_author_title.
Proof.
  intros r1 r2. unfold DB.by_author_title.
  destruct (decide (name (DB.row_author r1) = name (DB.row_author r2)))
    as [He|Hne].
  - destruct (total String.le (title (DB.row_book r1))
                    (title (DB.row_book r2))); [left|right]; right; eauto.
  - destruct (total String.le (name (DB.row_author r1))
                    (name (DB.row_author r2))); [left|right]; left; eauto.
Qed.



End listing_facts.

(** ** Search and sort *)

Section search_facts.

Lemma starts_with_spec p s :
  starts_with p s = true ↔ ∃ post, s = p +:+ post.
Proof.
  revert s. induction p as [|c p IH]; intros s.
  - split; [|done]. intros _. by exists s.
  - destruct s as [|d s]; simpl.
    + split; [done|]. by intros [post ?].
    + rewrite andb_true_iff, Ascii.eqb_eq, IH. split.
      * intros [-> [post ->]]. by exists post.
      * intros [post Hs]. rewrite app_cons in Hs. simplify_eq. eauto.
Qed.

Lemma occurs_spec p s : occurs p s = true ↔ Text.substring_of p s.
Proof.
  unfold Text.substring_of. induction s as [|d s IH]; simpl.
  - rewrite orb_false_r, starts_with_spec. split.
    + intros [post Hs]. by exists "", post.
    + intros (pre & post & Hs). destruct pre; [|done]. eauto.
  - rewrite orb_true_iff, starts_with_spec, IH. split.
    + intros [[post Hs]|(pre & post & ->)].
      * by exists "", post.
      * by exists (String d pre), post.
    + intros (pre & post & Hs). destruct pre as [|e pre].
      * left. eauto.
      * right. rewrite app_cons in Hs. simplify_eq. eauto.
Qed.

(** A decision procedure for occurrence up to case. *)
Lemma ci_substring_occurs q s :
  Text.ci_substring q s ↔ occurs (Text.lower q) (Text.lower s) = true.
Proof. by rewrite occurs_spec. Qed.

(** For a search text without wildcards, a row passes the filter exactly
    when the text occurs in one of the three columns. *)
Lemma row_matches_occurs q k b a :
  Text.wildcard_free q = true →
  Text.nul_free q = true →
  DB.row_matches ("%" +:+ q +:+ "%") (k, b, a) = true
  ↔ found_in_book q b a.
Proof.
  intros Hw Hn. unfold DB.row_matches, found_in_book. simpl.
  rewrite !orb_true_iff, !ilike_substring by done. tauto.
Qed.

(** A text without wildcards and without NUL that occurs in no book
    matches no book. *)
Lemma no_occurrence_no_match st q :
  Text.wildcard_free q = true →
  Text.nul_free q = true →
  (∀ k b a, books st !! k = Some b → authors st !! author_id b = Some a →
            ¬ found_in_book q b a) →
  no_book_matches st q.
Proof.
  intros Hw Hn Hno k b a Hb Ha.
  apply not_true_is_false. rewrite row_matches_occurs by done. eauto.
Qed.



End search_facts.


(** C3, as the code has it. The search text is the [q] parameter with
    surrounding whitespace removed. When it is empty the listing holds
    every book whose author row exists; when it is not empty, makes a
    LIKE pattern within SQLite's length limit and has no [%], no [_] and
    no NUL character, the listing holds exactly the books (with an author
    row) in whose title, ISBN or author name, each read up to its first
    NUL character, the text occurs up to ASCII case. No book is listed
    twice. *)
Theorem home_filter (st : Store) (req : Request) :
  NoDup (listed (home st req))
  ∧ (search_text req = "" →
       ∀ k b, (k, b) ∈ listed (home st req)
              ↔ books st !! k = Some b
                ∧ is_Some (authors st !! author_id b))
  ∧ (search_text req ≠ "" →
     within_like_limit (search_text req) →
     Text.wildcard_free (search_text req) = true →
     Text.nul_free (search_text req) = true →
       ∀ k b, (k, b) ∈ listed (home st req)
              ↔ books st !! k = Some b
                ∧ ∃ a, authors st !! author_id b = Some a
                       ∧ found_in_book (search_text req) b a).
Proof.
  split; [apply NoDup_listed|]. split.
  - intros Hq k b. rewrite elem_of_listed. fold (search_text req).
    unfold selected. rewrite Hq. simpl.
    setoid_rewrite elem_of_join_author. unfold is_Some.
    split; [intros (a & Hb & Ha)|intros (Hb & a & Ha)]; eauto.
  - intros Hq _ Hw Hn k b. rewrite elem_of_listed. fold (search_text req).
    unfold selected. rewrite (proj2 (truthy_true _) Hq).
    setoid_rewrite list_elem_of_filter.
    setoid_rewrite elem_of_join_author.
    setoid_rewrite (row_matches_occurs _ _ _ _ Hw Hn).
    split; [intros (a & Hm & Hb & Ha)|intros (Hb & a & Ha & Hm)]; eauto.
Qed.


(** [date.fromisoformat] reads the basic and the week forms of ISO 8601
    as well as YYYY-MM-DD, looks at no character after the last component
    of a text of the right length, and rejects a day that does not
    exist. *)
Example fromisoformat_forms :
  PyDate.fromisoformat "2020-01-31"
  = Ok {| year := 2020; month := 1; day := 31 |}
  ∧ PyDate.fromisoformat "20200131"
    = Ok {| year := 2020; month := 1; day := 31 |}
  ∧ PyDate.fromisoformat "2020-W01-1"
    = Ok {| year := 2019; month := 12; day := 30 |}
  ∧ PyDate.fromisoformat "2020W01"
    = Ok {| year := 2019; month := 12; day := 30 |}
  ∧ PyDate.fromisoformat "2020010199"
    = Ok {| year := 2020; month := 1; day := 1 |}
  ∧ PyDate.fromisoformat "2021-02-29" = Raise ValueError
  ∧ PyDate.fromisoformat "2020-1-31" = Raise ValueError
  ∧ PyDate.fromisoformat "21/10/1929" = Raise ValueError.
Proof. repeat split; reflexivity. Qed.

(** ** Adding an author *)

Section add_author_facts.

Lemma fromisoformat_raises raw e :
  PyDate.fromisoformat raw = Raise e → e = ValueError.
Proof. unfold PyDate.fromisoformat. destruct (PyDate.parse raw); congruence. Qed.

Lemma optional_date_raises raw e :
  optional_date raw = Raise e → e = ValueError.
Proof.
  unfold optional_date. destruct (Text.truthy raw); [|done].
  destruct (PyDate.fromisoformat raw) as [d|e'] eqn:Hp; simpl; [done|].
  intros [= <-]. by apply (fromisoformat_raises raw).
Qed.

Lemma optional_date_raise raw :
  optional_date raw = Raise ValueError ↔ malformed_date raw.
Proof.
  unfold optional_date, malformed_date. destruct raw as [|c raw]; simpl.
  - split; [done|]. by intros [? _].
  - destruct (PyDate.fromisoformat (String c raw)) as [d|e] eqn:Hp; simpl.
    + split; [done|]. by intros [_ ?].
    + rewrite (fromisoformat_raises _ _ Hp). done.
Qed.

Lemma optional_date_ok raw :
  (∃ od, optional_date raw = Ok od) ↔ wellformed_date raw.
Proof.
  unfold optional_date, wellformed_date. destruct raw as [|c raw]; simpl.
  - split; [by left|]. intros _. by exists None.
  - destruct (PyDate.fromisoformat (String c raw)) as [d|e]; simpl.
    + split; [right|]; eauto.
    + split; [by intros [? ?]|]. by intros [?|[? ?]].
Qed.

Lemma optional_date_empty od : optional_date "" = Ok od → od = None.
Proof. unfold optional_date. simpl. by intros [= <-]. Qed.

Lemma add_author_post st req :
  method req = "POST" → add_author_outcome st req (add_author st req).
Proof.
  intros Hm. unfold add_author. rewrite (proj2 (method_post req) Hm).
  fold (field req "name") (field req "birth_date")
       (field req "date_of_death").
  fold (optional_date (field req "birth_date")).
  fold (optional_date (field req "date_of_death")).
  destruct (optional_date (field req "birth_date")) as [bd|e] eqn:Hb; simpl.
  2: { pose proof (optional_date_raises _ _ Hb). subst e.
       constructor. left. by apply optional_date_raise. }
  destruct (optional_date (field req "date_of_death")) as [dd|e] eqn:Hd;
    simpl.
  2: { pose proof (optional_date_raises _ _ Hd). subst e.
       constructor. right. by apply optional_date_raise. }
  destruct (Text.truthy (field req "name")) eqn:Hn; simpl.
  - apply truthy_true in Hn. by apply AddAuthorStored.
  - apply truthy_false in Hn. by eapply AddAuthorNoName.
Qed.

Lemma malformed_not_ok raw od :
  malformed_date raw → optional_date raw = Ok od → False.
Proof. intros Hbad%optional_date_raise Hok. congruence. Qed.

End add_author_facts.

(** A date field cannot be both malformed and parsed. *)
Ltac absurd_date := exfalso; eapply malformed_not_ok; eassumption.

(** C5, as the code has it. An [add_author] call whose name is empty after
    trimming creates no author: the store is unchanged. The dates are
    read before the name is looked at; when each date field is empty or a
    calendar date, the answer is the message that the name is required. *)
Theorem add_author_name_required (st : Store) (req : Request) :
  method req = "POST" →
  field req "name" = "" →
  (add_author st req).2 = st
  ∧ (wellformed_date (field req "birth_date") →
     wellformed_date (field req "date_of_death") →
     (add_author st req).1 = RenderAddAuthor (Some name_required_message)).
Proof.
  intros Hm Hn.
  destruct (add_author_post st req Hm) as [Hbad|bd dd Hb Hd _|bd dd _ _ Hne];
    simpl; [| |done].
  - split; [done|]. intros [od Hb]%optional_date_ok [od' Hd]%optional_date_ok.
    destruct Hbad as [Hbad|Hbad]; absurd_date.
  - done.
Qed.

(** C6, as the code has it. A date field of [add_author] that is given
    and that [date.fromisoformat] rejects is not answered with a
    validation message: the [ValueError] of the parser leaves the view,
    and the store is unchanged. When both date fields are well formed and
    the name is not empty, the author is stored under a new key with each
    date as parsed, and an empty date field is stored as null. *)
Theorem add_author_dates (st : Store) (req : Request) :
  method req = "POST" →
  (malformed_date (field req "birth_date")
   ∨ malformed_date (field req "date_of_death") →
   add_author st req = (InternalServerError ValueError, st))
  ∧ (∀ bd dd,
       field req "name" ≠ "" →
       optional_date (field req "birth_date") = Ok bd →
       optional_date (field req "date_of_death") = Ok dd →
       add_author st req
       = (RenderAddAuthor (Some (author_added_message (field req "name"))),
          DB.insert_author st {| name := field req "name";
                                 birth_date := bd;
                                 date_of_death := dd |})
       ∧ authors st !! DB.next_id (authors st) = None
       ∧ authors (add_author st req).2 !! DB.next_id (authors st)
         = Some {| name := field req "name";
                   birth_date := bd;
                   date_of_death := dd |}
       ∧ (field req "birth_date" = "" → bd = None)
       ∧ (field req "date_of_death" = "" → dd = None)).
Proof.
  intros Hm.
  destruct (add_author_post st req Hm)
    as [Hbad|bd dd Hb Hd Hn|bd dd Hb Hd Hn].
  - split; [done|]. intros bd dd _ Hb Hd.
    destruct Hbad as [Hbad|Hbad]; absurd_date.
  - split.
    + intros [Hbad|Hbad]; absurd_date.
    + intros bd' dd' Hne. done.
  - split.
    + intros [Hbad|Hbad]; absurd_date.
    + intros bd' dd' _ Hb' Hd'.
      assert (bd' = bd) as -> by congruence.
      assert (dd' = dd) as -> by congruence.
      split; [done|]. split; [apply next_id_fresh|]. split.
      * simpl. apply lookup_insert_eq.
      * split; intros He; rewrite He in *; by eapply optional_date_empty.
Qed.

(** ** Adding a book *)

Section add_book_facts.

Lemma optional_int_empty y : optional_int "" = Ok y → y = None.
Proof. unfold optional_int. simpl. by intros [= <-]. Qed.

Lemma optional_int_given raw y :
  raw ≠ "" → optional_int raw = Ok y → ∃ z, Py.int raw = Ok z ∧ y = Some z.
Proof.
  intros Hr%truthy_true. unfold optional_int. rewrite Hr.
  destruct (Py.int raw) as [z|e]; simpl; [|done].
  intros [= <-]. eauto.
Qed.

(** A year field that is empty or an integer of 64 bits gives a value the
    store can hold. *)
Lemma optional_int_in_range raw y :
  optional_int raw = Ok y →
  raw = "" ∨ (∃ z, Py.int raw = Ok z ∧ DB.int64 z = true) →
  DB.int64_or_null y = true.
Proof.
  intros Hy [->|(z & Hz & Hr)].
  - by rewrite (optional_int_empty _ Hy).
  - destruct (decide (raw = "")) as [->|Hne].
    + by rewrite (optional_int_empty _ Hy).
    + destruct (optional_int_given _ _ Hne Hy) as (z' & Hz' & ->).
      simpl. congruence.
Qed.

Lemma isbn_in_conflict_message i :
  Text.substring_of i (isbn_conflict_message i).
Proof.
  by exists "ISBN '",
    "' already exists. Please use a unique ISBN or edit the existing book.".
Qed.

End add_book_facts.

(** C2, as the code has it. An [add_book] call whose trimmed ISBN is the
    ISBN of a book in the store leaves the store as it was. The required
    fields and the two numbers are read first; when the ISBN, the title
    and the author are not empty, the publication year is empty or an
    integer of 64 bits and the author is an integer of 64 bits, the
    answer is the conflict message, which quotes the ISBN. *)
Theorem add_book_isbn_conflict (foreign_keys : bool) (st : Store)
    (req : Request) :
  method req = "POST" →
  DB.isbn_taken (books st) (field req "isbn") →
  (add_book foreign_keys st req).2 = st
  ∧ (field req "isbn" ≠ "" → field req "title" ≠ "" →
     field req "author_id" ≠ "" →
     (field req "publication_year" = ""
      ∨ ∃ y, Py.int (field req "publication_year") = Ok y
             ∧ DB.int64 y = true) →
     (∃ a, Py.int (field req "author_id") = Ok a ∧ DB.int64 a = true) →
     add_book_says (add_book foreign_keys st req).1
       (isbn_conflict_message (field req "isbn"))
     ∧ Text.substring_of (field req "isbn")
         (isbn_conflict_message (field req "isbn"))).
Proof.
  intros Hm Htaken.
  destruct (add_book_post foreign_keys st req Hm)
    as [l Hmiss|Hi Ht Ha Hy Hbad|y Hi Ht Ha Hy Hbad
        |l y a Hi Ht Ha Hy Hp Hrej Hy64 Ha64
        |l y a Hi Ht Ha Hy Hp Hfree Hfk Hy64 Ha64
        |y a Hi Ht Ha Hy Hp Hover];
    simpl; (split; [done|]) || idtac.
  - intros Hi Ht Ha. destruct Hmiss as [?|[?|?]]; done.
  - intros _ _ _ [He|(z & Hz & _)] _; [done|congruence].
  - intros _ _ _ _ (a & Hz & _). congruence.
  - intros _ _ _ _ _. split; [by exists l|apply isbn_in_conflict_message].
  - done.
  - intros _ _ _ Hyear (a' & Ha' & Ha64). exfalso.
    assert (a' = a) as -> by congruence.
    pose proof (optional_int_in_range _ _ Hy Hyear).
    destruct Hover; congruence.
Qed.

(** C7. The publication year of [add_book] must be an integer when it is
    given: a year that is given and does not parse stores nothing. A book
    the call stores carries the parsed integer, or null when the field
    was empty. In particular a book added with the year ["1954"] is in
    the store with the integer [1954] as its year, and the listing
    returns it so when its author exists; the add goes through when the
    ISBN is new and the author is an integer of 64 bits (the key of an
    author, when foreign keys are enforced). *)
Theorem add_book_publication_year (foreign_keys : bool) (st : Store)
    (req : Request) :
  method req = "POST" →
  (field req "publication_year" ≠ "" →
   Py.int (field req "publication_year") = Raise ValueError →
   (add_book foreign_keys st req).2 = st)
  ∧ (∀ k b,
       books st !! k = None →
       books (add_book foreign_keys st req).2 !! k = Some b →
       (field req "publication_year" = "" → publication_year b = None)
       ∧ (∀ y, field req "publication_year" ≠ "" →
               Py.int (field req "publication_year") = Ok y →
               publication_year b = Some y))
  ∧ (field req "publication_year" = "1954" →
     field req "isbn" ≠ "" → field req "title" ≠ "" →
     ¬ DB.isbn_taken (books st) (field req "isbn") →
     (∃ a, Py.int (field req "author_id") = Ok a
           ∧ DB.int64 a = true
           ∧ (foreign_keys = true → is_Some (authors st !! a))) →
     add_book_says (add_book foreign_keys st req).1
       (book_added_message (field req "title"))
     ∧ ∃ k b,
         books st !! k = None
         ∧ books (add_book foreign_keys st req).2 !! k = Some b
         ∧ isbn b = field req "isbn"
         ∧ title b = field req "title"
         ∧ publication_year b = Some 1954
         ∧ (is_Some (authors st !! author_id b) →
            (k, b) ∈ listed (home (add_book foreign_keys st req).2 list_all))).
Proof.
  intros Hm.
  assert (optional_int "1954" = Ok (Some 1954)) as H54 by reflexivity.
  destruct (add_book_post foreign_keys st req Hm)
    as [l Hmiss|Hi Ht Ha Hy Hbad|y Hi Ht Ha Hy Hbad
        |l y a Hi Ht Ha Hy Hp Hrej Hy64 Ha64
        |l y a Hi Ht Ha Hy Hp Hfree Hfk Hy64 Ha64
        |y a Hi Ht Ha Hy Hp Hover];
    cbn [fst snd].
  1-4, 6: split; [done|]; split; [intros k b Hk Hk'; congruence|];
       intros H1954 Hi' Ht' Hfree' (a' & Ha' & Ha64' & Hfk'); exfalso.
  - destruct Hmiss as [?|[?|Hmiss]]; [done..|].
    rewrite Hmiss in Ha'. vm_compute in Ha'. congruence.
  - rewrite H1954 in Hbad. vm_compute in Hbad. congruence.
  - congruence.
  - destruct Hrej as [?|[Hfk Hnone]]; [done|].
    assert (a' = a) as -> by congruence.
    destruct (Hfk' Hfk) as [? ?]. congruence.
  - assert (a' = a) as -> by congruence.
    rewrite H1954, H54 in Hy. simplify_eq.
    destruct Hover as [Hover|Hover]; [by vm_compute in Hover|congruence].
  - split; [|split].
    + intros Hne Hraise.
      destruct (optional_int_given _ _ Hne Hy) as (z & Hz & _). congruence.
    + intros k b Hk Hk'. cbn [books] in Hk'.
      apply lookup_insert_Some in Hk' as [[<- <-]|[_ Hk']]; [|congruence].
      cbn [publication_year]. split.
      * intros He. rewrite He in Hy. by apply optional_int_empty.
      * intros z Hne Hz.
        destruct (optional_int_given _ _ Hne Hy) as (z' & Hz' & ->).
        congruence.
    + intros H1954 _ _ _ _. split; [by exists l|].
      assert (y = Some 1954) as ->.
      { rewrite H1954, H54 in Hy. congruence. }
      eexists _, _. split; [apply next_id_fresh|].
      split; [apply lookup_insert_eq|].
      do 3 (split; [done|]). cbn [author_id].
      intros [au Hau]. apply elem_of_listed. exists au.
      change (Text.strip (get (args list_all) "q" "")) with "".
      apply elem_of_join_author. split; [apply lookup_insert_eq|done].
Qed.

(** ** Facts for the concrete inputs *)

Section sample_facts.


Lemma isbn_unique_empty : isbn_unique empty_store.
Proof. intros i j b1 b2 H. simpl in H. by rewrite lookup_empty in H. Qed.

Lemma not_occurs_in_book q b a :
  occurs (Text.lower q) (Text.lower (title b)) = false →
  occurs (Text.lower q) (Text.lower (isbn b)) = false →
  occurs (Text.lower q) (Text.lower (name a)) = false →
  ¬ occurs_in_book q b a.
Proof.
  intros Ht Hi Hn [H|[H|H]]; apply ci_substring_occurs in H; congruence.
Qed.

Lemma isbn_taken_lookup bs k b : bs !! k = Some b → DB.isbn_taken bs (isbn b).
Proof. intros Hk. by apply (map_Exists_lookup_2 _ _ k b). Qed.

End sample_facts.

(** The sorting example of the specification: by author, the books of
    Adams come first, in title order, then the book of Baker. *)
Example home_sort_author_example :
  listed (home library (get_request [("sort", "author")]))
  = [(2, alpha); (1, zoo); (3, beta)].
Proof. reflexivity. Qed.

(** The search example of the specification: the author name is searched
    whatever the case of the query. *)
Example home_search_case_example :
  listed (home library (get_request [("q", "bAKER")])) = [(3, beta)].
Proof. reflexivity. Qed.

(** The deletion example of the specification: deleting the only book of
    Baker removes Baker, deleting one of the two books of Adams keeps
    Adams. *)
Example delete_book_example :
  authors (delete_book library 3).2 !! 2 = None
  ∧ books (delete_book library 3).2 !! 3 = None
  ∧ authors (delete_book library 1).2 !! 1 = Some adams
  ∧ books (delete_book library 1).2 !! 1 = None.
Proof. repeat split; reflexivity. Qed.

(** ** The theorems at concrete inputs *)

(** C10 at a store whose only book refers to a missing author. *)
Lemma delete_book_author_absent_witness :
  delete_book orphan_store 1
  = (Redirect "home" "Deleted book 'Dune'.", empty_store)
  ∧ Text.substring_of "Dune" "Deleted book 'Dune'.".
Proof.
  apply (delete_book_author_absent orphan_store 1 orphan).
  - reflexivity.
  - intros k b Hne Hk. simpl in Hk.
    rewrite lookup_insert_ne in Hk by done. by rewrite lookup_empty in Hk.
  - reflexivity.
Defined.

(** C8 along a sequence that tries to add one ISBN twice. *)
Lemma reachable_isbn_unique_witness :
  isbn_unique empty_store
  ∧ isbn_unique
      (run_ops false empty_store
         [OpAddAuthor (post_request [("name", "Adams")]);
          OpAddBook (post_request [("isbn", "111"); ("title", "Zoo");
                                   ("author_id", "1")]);
          OpAddBook (post_request [("isbn", "111"); ("title", "Alpha");
                                   ("author_id", "1")]);
          OpListBooks (get_request []);
          OpDeleteBook 1]).
Proof.
  split; [apply isbn_unique_empty|].
  apply (reachable_isbn_unique false empty_store). apply isbn_unique_empty.
Defined.


(** C5 with a name of blanks only. *)
Lemma add_author_name_required_witness :
  (add_author library (post_request [("name", "   ")])).2 = library
  ∧ (add_author library (post_request [("name", "   ")])).1
    = RenderAddAuthor (Some "Name is required.").
Proof.
  destruct (add_author_name_required library
              (post_request [("name", "   ")])) as [Hst Hmsg];
    [reflexivity|reflexivity|].
  split; [exact Hst|]. apply Hmsg; by left.
Defined.

(** C6 with a birth date given and no date of death. *)
Lemma add_author_dates_witness :
  authors (add_author library
             (post_request [("name", "Frank Herbert");
                            ("birth_date", "1920-10-08")])).2 !! 3
  = Some {| name := "Frank Herbert";
            birth_date := Some {| year := 1920; month := 10; day := 8 |};
            date_of_death := None |}.
Proof.
  destruct (add_author_dates library
              (post_request [("name", "Frank Herbert");
                             ("birth_date", "1920-10-08")]) eq_refl)
    as [_ Hok].
  destruct (Hok (Some {| year := 1920; month := 10; day := 8 |}) None)
    as (_ & _ & Hstored & _); [by vm_compute|reflexivity|reflexivity|].
  exact Hstored.
Defined.

(** C2 with the ISBN of the first book of the sample library. *)
Lemma add_book_isbn_conflict_witness :
  (add_book true library
     (post_request [("isbn", " 111 "); ("title", "Again");
                    ("author_id", "2")])).2 = library
  ∧ add_book_says
      (add_book true library
         (post_request [("isbn", " 111 "); ("title", "Again");
                        ("author_id", "2")])).1
      (isbn_conflict_message "111").
Proof.
  destruct (add_book_isbn_conflict true library
              (post_request [("isbn", " 111 "); ("title", "Again");
                             ("author_id", "2")])) as [Hst Hmsg].
  - reflexivity.
  - apply (isbn_taken_lookup (books library) 1 zoo). reflexivity.
  - split; [exact Hst|].
    apply Hmsg; [by vm_compute|by vm_compute|by vm_compute|by left|].
    exists 2. split; reflexivity.
Defined.

(** C7 with the year ["1954"]. *)
Lemma add_book_publication_year_witness :
  ∃ k b,
    books (add_book true library
             (post_request [("isbn", "444"); ("title", "The Two Towers");
                            ("publication_year", "1954");
                            ("author_id", "2")])).2 !! k = Some b
    ∧ title b = "The Two Towers"
    ∧ publication_year b = Some 1954.
Proof.
  destruct (add_book_publication_year true library
              (post_request [("isbn", "444"); ("title", "The Two Towers");
                             ("publication_year", "1954");
                             ("author_id", "2")]) eq_refl)
    as (_ & _ & Hround).
  destruct Hround as (_ & k & b & _ & Hk & _ & Ht & Hy & _).
  - reflexivity.
  - by vm_compute.
  - by vm_compute.
  - intros (k & b & Hk & Hi)%map_Exists_lookup_1. revert Hk Hi.
    change (field _ "isbn") with "444". simpl.
    intros [[<- <-]|[_ [[<- <-]|[_ [[<- <-]|[_ Hk]]%lookup_insert_Some]]
      %lookup_insert_Some]]%lookup_insert_Some; [done..|].
    by rewrite lookup_empty in Hk.
  - exists 2. split; [reflexivity|]. split; [reflexivity|].
    intros _. by exists baker.
  - exists k, b. split; [exact Hk|]. split; [exact Ht|exact Hy].
Defined.

(** ** Where the code departs from the specification *)
(** C1 fails as stated: the key [2^63] belongs to no book of the sample
    library, and [delete_book] answers it with the unhandled
    [OverflowError] of the lookup, not with not-found. *)
Lemma delete_book_cascade_counterexample :
  books library !! two_to_63 = None
  ∧ delete_book library two_to_63
    = (InternalServerError OverflowError, library)
  ∧ (delete_book library two_to_63).1 ≠ NotFound.
Proof. repeat split; try reflexivity. by vm_compute. Qed.

(** C2 fails as stated: a call with the ISBN of an existing book and an
    empty title is answered with the required-fields message, not with
    the conflict message. *)
Lemma add_book_isbn_conflict_counterexample :
  method untitled_duplicate = "POST"
  ∧ DB.isbn_taken (books library) (field untitled_duplicate "isbn")
  ∧ shown (add_book true library untitled_duplicate).1
    = Some "ISBN, Title, and Author are required."
  ∧ shown (add_book false library untitled_duplicate).1
    = Some "ISBN, Title, and Author are required."
  ∧ ¬ add_book_says (add_book true library untitled_duplicate).1
        (isbn_conflict_message "111")
  ∧ ¬ add_book_says (add_book false library untitled_duplicate).1
        (isbn_conflict_message "111").
Proof.
  split; [reflexivity|].
  split; [apply (isbn_taken_lookup (books library) 1 zoo); reflexivity|].
  split; [reflexivity|]. split; [reflexivity|].
  split; intros [l Hl]; vm_compute in Hl; discriminate Hl.
Qed.

(** C3 fails as stated: a blank, an underscore, and a NUL character
    followed by letters are non-empty search texts that occur in no title,
    ISBN or author name of the sample library, and each of the three
    searches lists all three books. *)
Lemma home_filter_counterexample :
  get (args blank_search) "q" "" = " "
  ∧ listed (home library blank_search) = [(2, alpha); (3, beta); (1, zoo)]
  ∧ ¬ occurs_in_book " " alpha adams
  ∧ ¬ occurs_in_book " " beta baker
  ∧ ¬ occurs_in_book " " zoo adams
  ∧ get (args underscore_search) "q" "" = "_"
  ∧ listed (home library underscore_search)
    = [(2, alpha); (3, beta); (1, zoo)]
  ∧ ¬ occurs_in_book "_" alpha adams
  ∧ ¬ occurs_in_book "_" beta baker
  ∧ ¬ occurs_in_book "_" zoo adams
  ∧ get (args nul_search) "q" "" = String Text.nul "zzz"
  ∧ listed (home library nul_search) = [(2, alpha); (3, beta); (1, zoo)]
  ∧ ¬ occurs_in_book (String Text.nul "zzz") alpha adams
  ∧ ¬ occurs_in_book (String Text.nul "zzz") beta baker
  ∧ ¬ occurs_in_book (String Text.nul "zzz") zoo adams.
Proof.
  repeat split; try reflexivity; by apply not_occurs_in_book.
Qed.

(** C5 fails as stated: with an empty name and a birth date that is no
    date, the answer is the unhandled [ValueError], not the message that
    the name is required. *)
Lemma add_author_name_required_counterexample :
  method nameless_misdated = "POST"
  ∧ field nameless_misdated "name" = ""
  ∧ add_author library nameless_misdated
    = (InternalServerError ValueError, library)
  ∧ (add_author library nameless_misdated).1
    ≠ RenderAddAuthor (Some name_required_message).
Proof. repeat split; try reflexivity. by vm_compute. Qed.

(** C6 fails as stated: a birth date that is given and is no ISO date is
    answered with the unhandled [ValueError], not with one of the pages
    of the view. *)
Lemma add_author_dates_counterexample :
  method misdated = "POST"
  ∧ malformed_date (field misdated "birth_date")
  ∧ add_author library misdated = (InternalServerError ValueError, library)
  ∧ ¬ add_author_page (add_author library misdated).1.
Proof.
  split; [reflexivity|]. split; [split; [by vm_compute|reflexivity]|].
  split; [reflexivity|]. intros [m Hm]. vm_compute in Hm. discriminate Hm.
Qed.



(** * Further properties of the views *)

(** ** The add-book form *)

Section add_book_more.

Global Instance by_name_trans : Transitive DB.by_name.
Proof. intros a1 a2 a3. unfold DB.by_name. apply transitivity. Qed.

Global Instance by_name_total : Total DB.by_name.
Proof. intros a1 a2. unfold DB.by_name. apply total, _. Qed.

(** Whatever [add_book] renders, it renders with the author list read at
    the start of the view. *)
Lemma add_book_page foreign_keys st req :
  (∃ e, (add_book foreign_keys st req).1 = InternalServerError e)
  ∨ ∃ m, (add_book foreign_keys st req).1 = RenderAddBook (form_authors st) m.
Proof.
  unfold add_book. fold (form_authors st).
  destruct (String.eqb (method req) "POST"); [|right; by eexists].
  destruct (negb _ || negb _ || negb _); [right; by eexists|].
  destruct (if Text.truthy _ then _ else _) as [y|e]; simpl;
    [|left; by eexists].
  destruct (Py.int _) as [a|e]; simpl; [|left; by eexists].
  destruct (DB.insert_book _ _ _) as [st'|[]]; simpl;
    (left; by eexists) || (right; by eexists).
Qed.

Lemma add_book_page_list foreign_keys st req l m :
  (add_book foreign_keys st req).1 = RenderAddBook l m → l = form_authors st.
Proof.
  intros Hr.
  destruct (add_book_page foreign_keys st req) as [[e He]|[m' He]];
    rewrite He in Hr; by simplify_eq.
Qed.

Lemma int_empty : Py.int "" = Raise ValueError.
Proof. reflexivity. Qed.

(** The path of [add_book] that stores the book. *)
Lemma add_book_stored foreign_keys st req y a :
  method req = "POST" →
  field req "isbn" ≠ "" → field req "title" ≠ "" →
  optional_int (field req "publication_year") = Ok y →
  Py.int (field req "author_id") = Ok a →
  DB.int64_or_null y = true → DB.int64 a = true →
  ¬ DB.isbn_taken (books st) (field req "isbn") →
  (foreign_keys = true → is_Some (authors st !! a)) →
  add_book foreign_keys st req
  = (RenderAddBook (form_authors st)
       (Some (book_added_message (field req "title"))),
     {| authors := authors st;
        books := <[DB.next_id (books st) :=
                    {| isbn := field req "isbn";
                       title := field req "title";
                       publication_year := y;
                       author_id := a |}]> (books st) |}).
Proof.
  intros Hm Hi Ht Hy Ha Hy64 Ha64 Hfree Hfk.
  pose proof (add_book_page_list foreign_keys st req) as Hl.
  destruct (add_book_post foreign_keys st req Hm)
    as [l Hmiss|Hi' Ht' Ha' Hy' Hbad|y' Hi' Ht' Ha' Hy' Hbad
        |l y' a' Hi' Ht' Ha' Hy' Hp Hrej _ _
        |l y' a' Hi' Ht' Ha' Hy' Hp _ _ _ _
        |y' a' Hi' Ht' Ha' Hy' Hp Hover].
  - destruct Hmiss as [?|[?|Hmiss]]; [done..|].
    rewrite Hmiss, int_empty in Ha. congruence.
  - destruct (optional_int_given _ _ Hy' Hy) as (z & Hz & _). congruence.
  - congruence.
  - assert (a' = a) as -> by congruence.
    destruct Hrej as [?|[Hon Hnone]]; [done|].
    destruct (Hfk Hon) as [? ?]. congruence.
  - assert (a' = a) as -> by congruence.
    assert (y' = y) as -> by congruence.
    by rewrite (Hl l _ eq_refl).
  - assert (a' = a) as -> by congruence.
    assert (y' = y) as -> by congruence.
    destruct Hover; congruence.
Qed.

(** The success message of [add_book] is given on the storing path only. *)
Lemma add_book_says_added foreign_keys st req :
  method req = "POST" →
  add_book_says (add_book foreign_keys st req).1
    (book_added_message (field req "title")) →
  ∃ y a,
    field req "isbn" ≠ "" ∧ field req "title" ≠ ""
    ∧ optional_int (field req "publication_year") = Ok y
    ∧ Py.int (field req "author_id") = Ok a
    ∧ DB.int64_or_null y = true ∧ DB.int64 a = true
    ∧ ¬ DB.isbn_taken (books st) (field req "isbn")
    ∧ (foreign_keys = true → is_Some (authors st !! a)).
Proof.
  intros Hm [l' Hsays].
  destruct (add_book_post foreign_keys st req Hm)
    as [l Hmiss|Hi Ht Ha Hy Hbad|y Hi Ht Ha Hy Hbad
        |l y a Hi Ht Ha Hy Hp Hrej Hy64 Ha64
        |l y a Hi Ht Ha Hy Hp Hfree Hfk Hy64 Ha64
        |y a Hi Ht Ha Hy Hp Hover];
    cbn [fst] in Hsays.
  1-4, 6: exfalso; unfold book_added_message, book_required_message,
         isbn_conflict_message in Hsays; discriminate Hsays.
  exists y, a. eauto 12.
Qed.

End add_book_more.

(** X1. An [add_book] call whose ISBN, title or author is empty after
    trimming is answered with the required-fields message on the form
    with all authors, before any number is parsed, and the store is
    unchanged. *)
Theorem add_book_required_fields (foreign_keys : bool) (st : Store)
    (req : Request) :
  method req = "POST" →
  field req "isbn" = "" ∨ field req "title" = ""
  ∨ field req "author_id" = "" →
  add_book foreign_keys st req
  = (RenderAddBook (form_authors st) (Some book_required_message), st).
Proof.
  intros Hm Hmiss.
  pose proof (add_book_page_list foreign_keys st req) as Hl.
  destruct (add_book_post foreign_keys st req Hm)
    as [l _|Hi Ht Ha _ _|y Hi Ht Ha _ _
        |l y a Hi Ht Ha _ _ _ _ _|l y a Hi Ht Ha _ _ _ _ _ _
        |y a Hi Ht Ha _ _ _].
  - by rewrite (Hl l _ eq_refl).
  - destruct Hmiss as [?|[?|?]]; done.
  - destruct Hmiss as [?|[?|?]]; done.
  - destruct Hmiss as [?|[?|?]]; done.
  - destruct Hmiss as [?|[?|?]]; done.
  - destruct Hmiss as [?|[?|?]]; done.
Qed.

(** X2. An [add_book] call with the required fields present, a year that
    is empty or an integer, and an author field that is no integer ends
    with the unhandled [ValueError] of [int]; nothing is stored. *)
Theorem add_book_author_not_integer (foreign_keys : bool) (st : Store)
    (req : Request) :
  method req = "POST" →
  field req "isbn" ≠ "" → field req "title" ≠ "" →
  field req "author_id" ≠ "" →
  (field req "publication_year" = ""
   ∨ ∃ y, Py.int (field req "publication_year") = Ok y) →
  Py.int (field req "author_id") = Raise ValueError →
  add_book foreign_keys st req = (InternalServerError ValueError, st).
Proof.
  intros Hm Hi Ht Ha Hy Hbad.
  destruct (add_book_post foreign_keys st req Hm)
    as [l Hmiss|_ _ _ Hne Hraise|y _ _ _ _ _
        |l y a _ _ _ _ Hp _ _ _|l y a _ _ _ _ Hp _ _ _ _
        |y a _ _ _ _ Hp _].
  - destruct Hmiss as [?|[?|?]]; done.
  - done.
  - done.
  - congruence.
  - congruence.
  - congruence.
Qed.

(** X3. An [add_book] call that passes every check, its numbers being
    integers of 64 bits, stores exactly one new book, with the trimmed
    fields and the parsed numbers, under a key no book had; every book of
    the store stays as it was, the authors are untouched, and the answer
    is the success message on the form. *)
Theorem add_book_stores (foreign_keys : bool) (st : Store) (req : Request)
    (y : option Z) (a : Z) :
  method req = "POST" →
  field req "isbn" ≠ "" → field req "title" ≠ "" →
  optional_int (field req "publication_year") = Ok y →
  Py.int (field req "author_id") = Ok a →
  DB.int64_or_null y = true → DB.int64 a = true →
  ¬ DB.isbn_taken (books st) (field req "isbn") →
  (foreign_keys = true → is_Some (authors st !! a)) →
  (add_book foreign_keys st req).1
  = RenderAddBook (form_authors st)
      (Some (book_added_message (field req "title")))
  ∧ authors (add_book foreign_keys st req).2 = authors st
  ∧ books st !! DB.next_id (books st) = None
  ∧ books (add_book foreign_keys st req).2 !! DB.next_id (books st)
    = Some {| isbn := field req "isbn";
              title := field req "title";
              publication_year := y;
              author_id := a |}
  ∧ (∀ k b, books st !! k = Some b →
            books (add_book foreign_keys st req).2 !! k = Some b)
  ∧ size (books (add_book foreign_keys st req).2) = S (size (books st)).
Proof.
  intros Hm Hi Ht Hy Ha Hy64 Ha64 Hfree Hfk.
  rewrite (add_book_stored foreign_keys st req y a) by done.
  cbn [fst snd authors books].
  split; [done|]. split; [done|]. split; [apply next_id_fresh|].
  split; [apply lookup_insert_eq|]. split.
  - intros k b Hk. rewrite lookup_insert_ne; [done|].
    intros <-. by rewrite next_id_fresh in Hk.
  - apply map_size_insert_None, next_id_fresh.
Qed.

(** X4. Sending again a request that [add_book] has just stored is
    answered with the conflict message for its ISBN, and the store stays
    as the first call left it. *)
Theorem add_book_resubmit (foreign_keys : bool) (st : Store) (req : Request) :
  method req = "POST" →
  add_book_says (add_book foreign_keys st req).1
    (book_added_message (field req "title")) →
  add_book_says
    (add_book foreign_keys (add_book foreign_keys st req).2 req).1
    (isbn_conflict_message (field req "isbn"))
  ∧ (add_book foreign_keys (add_book foreign_keys st req).2 req).2
    = (add_book foreign_keys st req).2.
Proof.
  intros Hm Hsays.
  destruct (add_book_says_added foreign_keys st req Hm Hsays)
    as (y & a & Hi & Ht & Hy & Ha & Hy64 & Ha64 & Hfree & Hfk).
  rewrite (add_book_stored foreign_keys st req y a) by done.
  cbn [fst snd].
  set (st1 := {| authors := authors st; books := _ |}).
  assert (DB.isbn_taken (books st1) (field req "isbn")) as Htaken.
  { apply (map_Exists_lookup_2 _ _ (DB.next_id (books st))
             {| isbn := field req "isbn"; title := field req "title";
                publication_year := y; author_id := a |}); [|done].
    apply lookup_insert_eq. }
  destruct (add_book_post foreign_keys st1 req Hm)
    as [l Hmiss|_ _ _ Hne Hraise|y' _ _ _ _ Hraise
        |l y' a' _ _ _ _ _ _ _ _|l y' a' _ _ _ _ _ Hfree' _ _ _
        |y' a' _ _ _ Hy' Ha' Hover]; cbn [fst snd].
  - destruct Hmiss as [?|[?|Hmiss]]; [done..|].
    rewrite Hmiss, int_empty in Ha. congruence.
  - destruct (optional_int_given _ _ Hne Hy) as (z & Hz & _). congruence.
  - congruence.
  - split; [by exists l|done].
  - done.
  - assert (a' = a) as -> by congruence.
    assert (y' = y) as -> by congruence.
    destruct Hover; congruence.
Qed.

(** X5. With foreign keys enforced, an [add_book] call for an author that
    is not in the store, its numbers being integers of 64 bits, is
    answered with the ISBN conflict message even when no book has that
    ISBN: every integrity error of the insert gets that message. The
    store is unchanged. *)
Theorem add_book_unknown_author (st : Store) (req : Request) (a : Z) :
  method req = "POST" →
  field req "isbn" ≠ "" → field req "title" ≠ "" →
  (field req "publication_year" = ""
   ∨ ∃ y, Py.int (field req "publication_year") = Ok y
          ∧ DB.int64 y = true) →
  Py.int (field req "author_id") = Ok a →
  DB.int64 a = true →
  authors st !! a = None →
  add_book true st req
  = (RenderAddBook (form_authors st)
       (Some (isbn_conflict_message (field req "isbn"))), st).
Proof.
  intros Hm Hi Ht Hy Ha Ha64 Hnone.
  pose proof (add_book_page_list true st req) as Hl.
  destruct (add_book_post true st req Hm)
    as [l Hmiss|_ _ _ Hne Hraise|y' _ _ _ _ Hraise
        |l y' a' _ _ _ _ _ _ _ _|l y' a' _ _ _ _ Ha' _ Hfk _ _
        |y' a' _ _ _ Hy' Ha' Hover].
  - destruct Hmiss as [?|[?|Hmiss]]; [done..|].
    rewrite Hmiss, int_empty in Ha. congruence.
  - destruct Hy as [?|(z & Hz & _)]; [done|congruence].
  - congruence.
  - by rewrite (Hl l _ eq_refl).
  - assert (a' = a) as -> by congruence.
    destruct (Hfk eq_refl) as [? ?]. congruence.
  - assert (a' = a) as -> by congruence.
    pose proof (optional_int_in_range _ _ Hy' Hy).
    destruct Hover; congruence.
Qed.

(** X6. Whenever [add_book] renders its form, on any method and on any
    path, the form lists every author of the store exactly once, in
    ascending order of name. *)
Theorem add_book_form_authors (foreign_keys : bool) (st : Store)
    (req : Request) (l : list (Z * Author)) (m : option string) :
  (add_book foreign_keys st req).1 = RenderAddBook l m →
  (∀ k a, (k, a) ∈ l ↔ authors st !! k = Some a)
  ∧ NoDup l
  ∧ StronglySorted DB.by_name l.
Proof.
  intros Hr. rewrite (add_book_page_list _ _ _ _ _ Hr).
  unfold form_authors, DB.order_by. split; [|split].
  - intros k a. rewrite merge_sort_Permutation. apply elem_of_map_to_list.
  - rewrite merge_sort_Permutation. apply NoDup_map_to_list.
  - apply StronglySorted_merge_sort; apply _.
Qed.

(** ** What the mutating views keep *)

Section keep_facts.

Lemma add_author_not_post st req :
  method req ≠ "POST" → add_author st req = (RenderAddAuthor None, st).
Proof.
  intros Hm. unfold add_author.
  by destruct (String.eqb_spec (method req) "POST").
Qed.

(** The authors table after [add_author]: as before, or with one new row
    under a fresh key. *)
Lemma add_author_authors st req :
  authors (add_author st req).2 = authors st
  ∨ ∃ a, authors (add_author st req).2
         = <[DB.next_id (authors st) := a]> (authors st).
Proof.
  destruct (decide (method req = "POST")) as [Hm|Hm].
  - destruct (add_author_post st req Hm); simpl; eauto.
  - rewrite add_author_not_post by done. by left.
Qed.

Lemma insert_fresh_lookup {A} (m : gmap Z A) x k y :
  m !! k = Some y → <[DB.next_id m := x]> m !! k = Some y.
Proof.
  intros Hk. rewrite lookup_insert_ne; [done|].
  intros <-. by rewrite next_id_fresh in Hk.
Qed.

(** The store [delete_book] leaves when the book exists. *)
Lemma delete_book_found st book_id book :
  books st !! book_id = Some book →
  delete_book st book_id
  = (Redirect "home" ("Deleted book '" +:+ title book +:+ "'."),
     {| authors :=
          if bool_decide
               (DB.count_books_by_author (DB.delete_book_row st book_id)
                  (author_id book) = 0%nat)
          then delete (author_id book) (authors st)
          else authors st;
        books := delete book_id (books st) |}).
Proof.
  intros Hb. unfold delete_book. rewrite (get_book_found _ _ _ Hb). f_equal.
  case_bool_decide; [|done]. cbn [authors DB.delete_book_row].
  destruct (authors st !! author_id book) eqn:E; [done|].
  unfold DB.delete_book_row. f_equal. symmetry. by apply delete_id.
Qed.

(** [delete_book] on a key of no book leaves the store as it was. *)
Lemma delete_book_absent st book_id :
  books st !! book_id = None →
  delete_book st book_id
  = (if DB.int64 book_id then NotFound
     else InternalServerError OverflowError, st).
Proof.
  intros Hb. unfold delete_book. rewrite (get_book_absent _ _ Hb).
  by destruct (DB.int64 book_id).
Qed.

(** The authors table after [delete_book]: as before, or without the
    author of the deleted book when no book of that author is left. *)
Lemma delete_book_authors st book_id :
  authors (delete_book st book_id).2 = authors st
  ∨ ∃ book,
      books st !! book_id = Some book
      ∧ (∀ k b, delete book_id (books st) !! k = Some b →
                author_id b ≠ author_id book)
      ∧ authors (delete_book st book_id).2
        = delete (author_id book) (authors st).
Proof.
  destruct (books st !! book_id) as [book|] eqn:Hb.
  - rewrite (delete_book_found st book_id book Hb). cbn [snd authors].
    case_bool_decide as Hc; [|by left].
    right. exists book. split; [done|]. split; [|done].
    by apply (count_books_zero (DB.delete_book_row st book_id)).
  - left. by rewrite (delete_book_absent _ _ Hb).
Qed.

(** A count that is not zero has a book behind it. *)
Lemma count_books_pos st aid :
  DB.count_books_by_author st aid ≠ 0%nat →
  ∃ k b, books st !! k = Some b ∧ author_id b = aid.
Proof.
  unfold DB.count_books_by_author. rewrite map_size_empty_iff.
  intros (k & b & [Hk Ha]%map_lookup_filter_Some)%map_choose. eauto.
Qed.

Lemma ref_integrity_add_author st req :
  ref_integrity st → ref_integrity (add_author st req).2.
Proof.
  intros Hr k b. rewrite add_author_books. intros Hk.
  destruct (Hr k b Hk) as [au Hau].
  destruct (add_author_authors st req) as [->|[a ->]]; [by eexists|].
  eexists. by apply insert_fresh_lookup.
Qed.

Lemma ref_integrity_delete_book st book_id :
  ref_integrity st → ref_integrity (delete_book st book_id).2.
Proof.
  intros Hr k b. rewrite delete_book_books. intros Hk.
  pose proof Hk as [_ Hk']%lookup_delete_Some.
  destruct (Hr k b Hk') as [au Hau].
  destruct (delete_book_authors st book_id)
    as [->|(book & _ & Hlast & ->)]; [by eexists|].
  exists au. rewrite lookup_delete_ne; [done|].
  intros He. by destruct (Hlast k b Hk).
Qed.

Lemma ref_integrity_add_book st req :
  ref_integrity st → ref_integrity (add_book true st req).2.
Proof.
  intros Hr. destruct (decide (method req = "POST")) as [Hm|Hm].
  - destruct (add_book_post true st req Hm)
      as [| | | |l y a _ _ _ _ _ _ Hfk _ _|]; cbn [snd]; try done.
    intros k b. cbn [books authors].
    intros [[<- <-]|[_ Hk]]%lookup_insert_Some; [by apply Hfk|by eapply Hr].
  - by rewrite add_book_not_post.
Qed.

End keep_facts.

(** X7. No [add_author] call, whatever its method and fields, touches the
    books table or removes or changes an author: every author of the
    store is still there under its key, and at most one author is added. *)
Theorem add_author_keeps (st : Store) (req : Request) :
  books (add_author st req).2 = books st
  ∧ (∀ k a, authors st !! k = Some a →
            authors (add_author st req).2 !! k = Some a)
  ∧ (size (authors (add_author st req).2) ≤ S (size (authors st)))%nat.
Proof.
  split; [apply add_author_books|].
  destruct (add_author_authors st req) as [->|[a ->]].
  - split; [done|lia].
  - split; [intros k a'; apply insert_fresh_lookup|].
    rewrite map_size_insert_None by apply next_id_fresh. lia.
Qed.

(** X8. No [add_book] call, whatever its method and fields, touches the
    authors table or removes or changes a book: every book of the store
    is still there under its key, and at most one book is added. *)
Theorem add_book_keeps (foreign_keys : bool) (st : Store) (req : Request) :
  authors (add_book foreign_keys st req).2 = authors st
  ∧ (∀ k b, books st !! k = Some b →
            books (add_book foreign_keys st req).2 !! k = Some b)
  ∧ (size (books (add_book foreign_keys st req).2)
     ≤ S (size (books st)))%nat.
Proof.
  destruct (add_book_books foreign_keys st req) as [Ha [->|(b & _ & ->)]].
  - split; [done|]. split; [done|lia].
  - split; [done|]. split; [intros k b'; apply insert_fresh_lookup|].
    rewrite map_size_insert_None by apply next_id_fresh. lia.
Qed.

(** X9. Author names are not unique: sending the same accepted
    [add_author] request twice stores two authors with that name under
    two different keys, and both answers are the success message. *)
Theorem add_author_twice (st : Store) (req : Request) :
  method req = "POST" →
  field req "name" ≠ "" →
  wellformed_date (field req "birth_date") →
  wellformed_date (field req "date_of_death") →
  ∃ k1 k2 a,
    k1 ≠ k2
    ∧ name a = field req "name"
    ∧ authors st !! k1 = None ∧ authors st !! k2 = None
    ∧ authors (add_author (add_author st req).2 req).2 !! k1 = Some a
    ∧ authors (add_author (add_author st req).2 req).2 !! k2 = Some a
    ∧ (add_author st req).1
      = RenderAddAuthor (Some (author_added_message (field req "name")))
    ∧ (add_author (add_author st req).2 req).1
      = RenderAddAuthor (Some (author_added_message (field req "name"))).
Proof.
  intros Hm Hn [bd Hb]%optional_date_ok [dd Hd]%optional_date_ok.
  assert (∀ st0, add_author st0 req
    = (RenderAddAuthor (Some (author_added_message (field req "name"))),
       DB.insert_author st0 {| name := field req "name";
                               birth_date := bd;
                               date_of_death := dd |})) as Hadd.
  { intros st0.
    destruct (add_author_post st0 req Hm)
      as [Hbad|bd' dd' _ _ Hn'|bd' dd' Hb' Hd' _]; [|done|].
    - destruct Hbad as [Hbad|Hbad]; absurd_date.
    - assert (bd' = bd) as -> by congruence.
      assert (dd' = dd) as -> by congruence. done. }
  rewrite !Hadd. cbn [fst snd].
  set (a := {| name := field req "name"; birth_date := bd;
               date_of_death := dd |}).
  set (st1 := DB.insert_author st a).
  exists (DB.next_id (authors st)), (DB.next_id (authors st1)), a.
  assert (authors st1 !! DB.next_id (authors st) = Some a) as H1
    by apply lookup_insert_eq.
  assert (DB.next_id (authors st) ≠ DB.next_id (authors st1)) as Hne.
  { intros He. rewrite He, next_id_fresh in H1. done. }
  split; [done|]. split; [done|]. split; [apply next_id_fresh|]. split.
  - destruct (authors st !! DB.next_id (authors st1)) eqn:E; [|done].
    apply (insert_fresh_lookup _ a) in E.
    change (<[_ := a]> (authors st)) with (authors st1) in E.
    by rewrite next_id_fresh in E.
  - split; [by apply insert_fresh_lookup|].
    split; [apply lookup_insert_eq|done].
Qed.

(** X10. Deleting the same book a second time changes nothing: the
    first delete has removed the key for good. The second answer is
    not-found when the key is an integer of 64 bits, and the unhandled
    [OverflowError] of the lookup when it is not. *)
Theorem delete_book_twice (st : Store) (book_id : Z) :
  (delete_book (delete_book st book_id).2 book_id).2
  = (delete_book st book_id).2
  ∧ (DB.int64 book_id = true →
     (delete_book (delete_book st book_id).2 book_id).1 = NotFound)
  ∧ (DB.int64 book_id = false →
     (delete_book (delete_book st book_id).2 book_id).1
     = InternalServerError OverflowError).
Proof.
  assert (books (delete_book st book_id).2 !! book_id = None) as Hgone.
  { rewrite delete_book_books. apply lookup_delete_eq. }
  rewrite (delete_book_absent _ _ Hgone). cbn [fst snd].
  split; [done|]. split; by intros ->.
Qed.

(** X11. [delete_book] never leaves a book without its author: in a
    store where every book refers to an existing author, the same holds
    after the delete, cascade included. *)
Theorem delete_book_keeps_references (st : Store) (book_id : Z) :
  ref_integrity st → ref_integrity (delete_book st book_id).2.
Proof. apply ref_integrity_delete_book. Qed.

(** X12. [delete_book] never leaves an author without books: in a store
    where every author has a book, the same holds after the delete. *)
Theorem delete_book_keeps_authors_with_books (st : Store) (book_id : Z) :
  every_author_has_book st → every_author_has_book (delete_book st book_id).2.
Proof.
  intros He a au Ha. rewrite delete_book_books.
  destruct (books st !! book_id) as [book|] eqn:Hb.
  - rewrite (delete_book_found st book_id book Hb) in Ha. cbn [snd authors] in Ha.
    case_bool_decide as Hc.
    + apply lookup_delete_Some in Ha as [Hne Ha].
      destruct (He a au Ha) as (k & b & Hk & Hab).
      exists k, b. split; [|done]. apply lookup_delete_Some. split; [|done].
      intros <-. congruence.
    + destruct (decide (a = author_id book)) as [->|Hne].
      * by apply (count_books_pos (DB.delete_book_row st book_id)).
      * destruct (He a au Ha) as (k & b & Hk & Hab).
        exists k, b. split; [|done]. apply lookup_delete_Some. split; [|done].
        intros <-. congruence.
  - rewrite (delete_book_absent _ _ Hb) in Ha. cbn [snd] in Ha.
    destruct (He a au Ha) as (k & b & Hk & Hab).
    exists k, b. split; [|done]. apply lookup_delete_Some. split; [|done].
    intros <-. congruence.
Qed.

(** X13. With foreign keys enforced, every store reached from a store in
    which each book refers to an existing author, by any sequence of
    [add_author], [add_book], [delete_book] and listing operations, has
    each book referring to an existing author. *)
Theorem reachable_ref_integrity (st : Store) (ops : list Op) :
  ref_integrity st → ref_integrity (run_ops true st ops).
Proof.
  unfold run_ops. revert st.
  induction ops as [|op ops IH]; intros st Hr; simpl; [done|].
  apply IH. destruct op as [req|req|book_id|req]; simpl.
  - by apply ref_integrity_add_author.
  - by apply ref_integrity_add_book.
  - by apply ref_integrity_delete_book.
  - done.
Qed.

(** X14. Adding a book and then deleting it gives the books table back.
    The authors table comes back too when the author already had a book;
    when the new book was the author's only one, the delete takes the
    author with it. *)
Theorem add_book_then_delete (foreign_keys : bool) (st : Store)
    (req : Request) :
  method req = "POST" →
  add_book_says (add_book foreign_keys st req).1
    (book_added_message (field req "title")) →
  ∃ a,
    Py.int (field req "author_id") = Ok a
    ∧ (delete_book (add_book foreign_keys st req).2
         (DB.next_id (books st))).1
      = Redirect "home" ("Deleted book '" +:+ field req "title" +:+ "'.")
    ∧ books (delete_book (add_book foreign_keys st req).2
               (DB.next_id (books st))).2 = books st
    ∧ ((∃ k b, books st !! k = Some b ∧ author_id b = a) →
       authors (delete_book (add_book foreign_keys st req).2
                  (DB.next_id (books st))).2 = authors st)
    ∧ ((∀ k b, books st !! k = Some b → author_id b ≠ a) →
       authors (delete_book (add_book foreign_keys st req).2
                  (DB.next_id (books st))).2 = delete a (authors st)).
Proof.
  intros Hm Hsays.
  destruct (add_book_says_added foreign_keys st req Hm Hsays)
    as (y & a & Hi & Ht & Hy & Ha & Hy64 & Ha64 & Hfree & Hfk).
  rewrite (add_book_stored foreign_keys st req y a) by done. cbn [snd].
  set (new := {| isbn := field req "isbn"; title := field req "title";
                 publication_year := y; author_id := a |}).
  set (st1 := {| authors := authors st; books := _ |}).
  assert (books st1 !! DB.next_id (books st) = Some new) as Hnew
    by apply lookup_insert_eq.
  assert (delete (DB.next_id (books st)) (books st1) = books st) as Hback
    by apply delete_insert_id, next_id_fresh.
  exists a. split; [done|].
  rewrite (delete_book_found st1 _ new Hnew). cbn [fst snd books authors].
  split; [done|]. split; [done|].
  case_bool_decide as Hc.
  - pose proof (proj1 (count_books_zero _ _) Hc) as Hz.
    cbn [DB.delete_book_row books] in Hz. rewrite Hback in Hz.
    split; [|done]. intros (k & b & Hk & Hab). by destruct (Hz k b Hk).
  - split; [done|]. intros Hnone. destruct Hc.
    apply (count_books_zero (DB.delete_book_row st1 _)).
    cbn [DB.delete_book_row books]. by rewrite Hback.
Qed.

(** ** More on the listing *)

Section listing_more.

(** A row is selected when it is in the join and, with a search text,
    passes the filter. *)
Lemma elem_of_selected st q r :
  r ∈ selected st q
  ↔ r ∈ DB.join_author st
    ∧ (q = "" ∨ DB.row_matches ("%" +:+ q +:+ "%") r = true).
Proof.
  unfold selected. destruct q as [|c q]; simpl.
  - split; [by eauto|by intros [? _]].
  - rewrite list_elem_of_filter. split.
    + intros [? ?]. eauto.
    + intros [? [?|?]]; done.
Qed.

(** [home] reads the store through the join only. *)
Lemma home_join st1 st2 req :
  DB.join_author st1 = DB.join_author st2 → home st1 req = home st2 req.
Proof. intros Hj. unfold home. by rewrite Hj. Qed.

Lemma omap_ext_in {A B} (f g : A → option B) (l : list A) :
  (∀ x, x ∈ l → f x = g x) → omap f l = omap g l.
Proof.
  induction l as [|x l IH]; intros Hfg; csimpl; [done|].
  rewrite (Hfg x) by constructor.
  rewrite IH; [done|]. intros y Hy. apply Hfg. by constructor.
Qed.

(** The pattern of a search is folded to lower case before it is used. *)
Lemma row_matches_lower q1 q2 r :
  Text.lower q1 = Text.lower q2 →
  DB.row_matches ("%" +:+ q1 +:+ "%") r
  = DB.row_matches ("%" +:+ q2 +:+ "%") r.
Proof.
  intros Hq. unfold DB.row_matches, Text.ilike.
  assert (Text.lower ("%" +:+ q1 +:+ "%") = Text.lower ("%" +:+ q2 +:+ "%"))
    as -> by (by rewrite !lower_app, Hq).
  done.
Qed.

Lemma lower_empty q : Text.lower q = "" ↔ q = "".
Proof. by destruct q. Qed.

Lemma selected_lower st q1 q2 :
  Text.lower q1 = Text.lower q2 → selected st q1 = selected st q2.
Proof.
  intros Hq. unfold selected.
  assert (Text.truthy q1 = Text.truthy q2) as ->.
  { destruct q1, q2; simplify_eq/=; done. }
  destruct (Text.truthy q2); [|done].
  induction (DB.join_author st) as [|r l IH]; [done|].
  rewrite !filter_cons, IH, (row_matches_lower q1 q2 r Hq). done.
Qed.

(** With every reference resolved, the join has one row for each book. *)
Lemma join_author_all st :
  ref_integrity st → DB.entity <$> DB.join_author st ≡ₚ map_to_list (books st).
Proof.
  intros Hr. apply NoDup_Permutation.
  - apply NoDup_fmap_2_strong; [|apply NoDup_join_author].
    intros [[k1 b1] a1] [[k2 b2] a2]
      [_ H1]%elem_of_join_author [_ H2]%elem_of_join_author He.
    unfold DB.entity in He. simplify_eq/=. done.
  - apply NoDup_map_to_list.
  - intros [k b]. rewrite list_elem_of_fmap, elem_of_map_to_list. split.
    + intros ([[k' b'] a] & He & [Hb _]%elem_of_join_author).
      unfold DB.entity in He. by simplify_eq/=.
    + intros Hb. destruct (Hr k b Hb) as [a Ha].
      exists (k, b, a). split; [done|]. by apply elem_of_join_author.
Qed.

End listing_more.

(** X15. Whatever the search text and the sort key, every listed entry is
    a book of the store under its own key, and its author exists: a book
    whose author row is missing is never listed. *)
Theorem home_lists_store_books (st : Store) (req : Request) (k : Z) (b : Book) :
  (k, b) ∈ listed (home st req) →
  books st !! k = Some b ∧ is_Some (authors st !! author_id b).
Proof.
  intros [a Hin]%elem_of_listed.
  apply selected_subseteq, elem_of_join_author in Hin as [Hb Ha]. eauto.
Qed.

(** X16. In a store where every book refers to an existing author, the
    listing without a search text holds every book of the store, each
    once: as many entries as the books table has rows. *)
Theorem home_all_books (st : Store) (req : Request) :
  ref_integrity st →
  search_text req = "" →
  (∀ k b, (k, b) ∈ listed (home st req) ↔ books st !! k = Some b)
  ∧ length (listed (home st req)) = size (books st).
Proof.
  intros Hr Hq.
  assert (listed (home st req) ≡ₚ map_to_list (books st)) as Hp.
  { rewrite home_listed. fold (search_text req). rewrite Hq.
    rewrite ordered_Permutation. by apply join_author_all. }
  split.
  - intros k b. rewrite Hp. apply elem_of_map_to_list.
  - rewrite Hp. apply length_map_to_list.
Qed.

(** X17. The search ignores the ASCII case of the search text: two
    requests with the same sort key whose search texts differ in case
    only list the same books in the same order. *)
Theorem home_search_ignores_case (st : Store) (req1 req2 : Request) :
  Text.lower (search_text req1) = Text.lower (search_text req2) →
  get (args req1) "sort" "title" = get (args req2) "sort" "title" →
  listed (home st req1) = listed (home st req2).
Proof.
  intros Hq Hs. rewrite !home_listed. fold (search_text req1) (search_text req2).
  by rewrite Hs, (selected_lower st _ _ Hq).
Qed.

(** X18. The sort key changes the order only: two requests with the same
    search text list the same books, whatever their sort keys. *)
Theorem home_sort_same_books (st : Store) (req1 req2 : Request) :
  search_text req1 = search_text req2 →
  listed (home st req1) ≡ₚ listed (home st req2).
Proof.
  intros Hq. rewrite !home_listed. fold (search_text req1) (search_text req2).
  by rewrite !ordered_Permutation, Hq.
Qed.



(** X21. In a store where every book refers to an existing author,
    [add_author] does not change what [home] answers: a new author has no
    book yet. *)
Theorem add_author_keeps_listing (st : Store) (req r : Request) :
  ref_integrity st →
  home (add_author st req).2 r = home st r.
Proof.
  intros Hr. apply home_join. unfold DB.join_author.
  rewrite add_author_books. apply omap_ext_in.
  intros [k b] Hin%elem_of_map_to_list. cbn [snd].
  destruct (Hr k b Hin) as [a Ha].
  destruct (add_author_authors st req) as [->|[a' ->]]; [done|].
  by rewrite (insert_fresh_lookup _ a' _ a Ha), Ha.
Qed.

(** X22. After [delete_book] the deleted key is never listed, and every
    other book that a request listed before is still listed by the same
    request. *)
Theorem delete_book_listing (st : Store) (book_id : Z) (req : Request) :
  (∀ b, (book_id, b) ∉ listed (home (delete_book st book_id).2 req))
  ∧ (∀ k b, k ≠ book_id → (k, b) ∈ listed (home st req) →
            (k, b) ∈ listed (home (delete_book st book_id).2 req)).
Proof.
  split.
  - intros b [a Hin]%elem_of_listed.
    apply selected_subseteq, elem_of_join_author in Hin as [Hb _].
    rewrite delete_book_books, lookup_delete_eq in Hb. done.
  - intros k b Hne [a Hin]%elem_of_listed. apply elem_of_listed. exists a.
    apply elem_of_selected in Hin as [[Hb Ha]%elem_of_join_author Hm].
    apply elem_of_selected. split; [|done].
    apply elem_of_join_author.
    assert (delete book_id (books st) !! k = Some b) as Hk
      by (by apply lookup_delete_Some).
    rewrite delete_book_books. split; [done|].
    destruct (delete_book_authors st book_id)
      as [->|(book & _ & Hlast & ->)]; [done|].
    rewrite lookup_delete_ne; [done|].
    intros He. by destruct (Hlast k b Hk).
Qed.


(** ** Wildcards in the search text *)

Section wildcard_facts.

Lemma length_app s t :
  String.length (s +:+ t) = (String.length s + String.length t)%nat.
Proof.
  induction s as [|c s IH]; [done|]. rewrite app_cons. simpl. by rewrite IH.
Qed.

Lemma length_lower s : String.length (Text.lower s) = String.length s.
Proof. induction s as [|c s IH]; simpl; [done|]. by rewrite IH. Qed.

Lemma lower_repeat_underscore n :
  Text.lower (repeat_char Text.underscore n) = repeat_char Text.underscore n.
Proof. induction n as [|n IH]; simpl; [done|]. by rewrite IH. Qed.


(** [n] underscores and a [%] match the texts of at least [n]
    characters. *)
Lemma like_underscores n t :
  Text.like (repeat_char Text.underscore n +:+ String Text.percent "") t = true
  ↔ (n ≤ String.length t)%nat.
Proof.
  revert t. induction n as [|n IH]; intros t.
  - rewrite app_nil. split; [lia|]. intros _. apply like_percent_all.
  - cbn [repeat_char]. rewrite app_cons. destruct t as [|c t].
    + simpl. split; [done|lia].
    + change (Text.like (String Text.underscore ?p) (String c t))
        with (Text.like p t).
      rewrite IH. simpl. lia.
Qed.

Lemma like_percent_underscores n t :
  Text.like (String Text.percent
               (repeat_char Text.underscore n +:+ String Text.percent "")) t
  = true
  ↔ (n ≤ String.length t)%nat.
Proof.
  rewrite like_percent. split.
  - intros (pre & post & -> & Hl%like_underscores).
    rewrite length_app. lia.
  - intros Hn. exists "", t. split; [done|]. by apply like_underscores.
Qed.

Lemma nul_free_repeat c n :
  Ascii.eqb c Text.nul = false → Text.nul_free (repeat_char c n) = true.
Proof. intros Hc. induction n as [|n IH]; simpl; [done|]. by rewrite Hc. Qed.

Lemma ilike_underscores n s :
  Text.ilike s ("%" +:+ repeat_char Text.underscore n +:+ "%") = true
  ↔ (n ≤ String.length (Text.c_str s))%nat.
Proof.
  unfold Text.ilike. rewrite c_str_pattern by (by apply nul_free_repeat).
  by rewrite lower_repeat_underscore, like_percent_underscores,
    c_str_lower, length_lower.
Qed.




End wildcard_facts.

(** X23. The search text goes into the LIKE pattern as it is, so an
    underscore stands for any one character: in a store of 7-bit texts,
    a search text of [n] underscores, [n] at least one and the LIKE
    pattern within SQLite's length limit, lists exactly the books (with an
    author row) whose title, ISBN or author name, read up to its first NUL
    character, has at least [n] characters. *)
Theorem home_underscore_search (st : Store) (req : Request) (n : nat) :
  search_text req = repeat_char Text.underscore (S n) →
  within_like_limit (search_text req) →
  ascii_store st →
  ∀ k b,
    (k, b) ∈ listed (home st req)
    ↔ books st !! k = Some b
      ∧ ∃ a, authors st !! author_id b = Some a
             ∧ (S n ≤ String.length (Text.c_str (title b))
                ∨ S n ≤ String.length (Text.c_str (isbn b))
                ∨ S n ≤ String.length (Text.c_str (name a)))%nat.
Proof.
  intros Hq _ _ k b. rewrite elem_of_listed. fold (search_text req).
  rewrite Hq.
  setoid_rewrite elem_of_selected.
  setoid_rewrite elem_of_join_author.
  unfold DB.row_matches. cbn [DB.row_book DB.row_author fst snd].
  setoid_rewrite orb_true_iff. setoid_rewrite orb_true_iff.
  setoid_rewrite ilike_underscores.
  split.
  - intros (a & [Hb Ha] & [He|Hm]); [done|].
    split; [done|]. exists a. split; [done|]. tauto.
  - intros (Hb & a & Ha & Hm). exists a. split; [done|]. right. tauto.
Qed.


(** ** The further properties at concrete inputs *)

Section sample_more.

Lemma ref_integrity_library : ref_integrity library.
Proof.
  apply (bool_decide_unpack
           (map_Forall (λ _ b, is_Some (authors library !! author_id b))
                       (books library))).
  by vm_compute.
Qed.

Lemma every_author_has_book_library : every_author_has_book library.
Proof.
  apply (bool_decide_unpack
           (map_Forall (λ a _, map_Exists (λ _ b, author_id b = a)
                                          (books library))
                       (authors library))).
  by vm_compute.
Qed.

Lemma ascii_store_library : ascii_store library.
Proof.
  split.
  - apply (bool_decide_unpack
             (map_Forall (λ _ b, seven_bit (title b) = true
                                 ∧ seven_bit (isbn b) = true)
                         (books library))).
    by vm_compute.
  - apply (bool_decide_unpack
             (map_Forall (λ _ a, seven_bit (name a) = true)
                         (authors library))).
    by vm_compute.
Qed.

Lemma isbn_444_free : ¬ DB.isbn_taken (books library) "444".
Proof.
  apply (bool_decide_eq_false_1 (DB.isbn_taken (books library) "444")).
  reflexivity.
Qed.

Lemma gamma_added :
  add_book_says (add_book true library gamma_request).1
    (book_added_message (field gamma_request "title")).
Proof. eexists. reflexivity. Qed.

End sample_more.

(** X1 with an author field of blanks. *)
Lemma add_book_required_fields_witness :
  add_book true library authorless_request
  = (RenderAddBook [(1, adams); (2, baker)]
       (Some "ISBN, Title, and Author are required."), library).
Proof.
  apply (add_book_required_fields true library authorless_request).
  - reflexivity.
  - right. right. reflexivity.
Defined.

(** X2 with the author given by name. *)
Lemma add_book_author_not_integer_witness :
  add_book false library named_author_request
  = (InternalServerError ValueError, library).
Proof.
  apply (add_book_author_not_integer false library named_author_request).
  - reflexivity.
  - by vm_compute.
  - by vm_compute.
  - by vm_compute.
  - by left.
  - reflexivity.
Defined.

(** X3 with a fourth book for the sample library. *)
Lemma add_book_stores_witness :
  books (add_book true library gamma_request).2 !! 4
  = Some {| isbn := "444"; title := "Gamma"; publication_year := Some 2001;
            author_id := 2 |}
  ∧ size (books (add_book true library gamma_request).2) = 4%nat.
Proof.
  destruct (add_book_stores true library gamma_request (Some 2001) 2)
    as (_ & _ & _ & Hnew & _ & Hsize).
  - reflexivity.
  - by vm_compute.
  - by vm_compute.
  - reflexivity.
  - reflexivity.
  - reflexivity.
  - reflexivity.
  - apply isbn_444_free.
  - intros _. by exists baker.
  - split; [exact Hnew|exact Hsize].
Defined.

(** X4 with the same fourth book sent twice. *)
Lemma add_book_resubmit_witness :
  add_book_says
    (add_book true (add_book true library gamma_request).2 gamma_request).1
    (isbn_conflict_message "444")
  ∧ (add_book true (add_book true library gamma_request).2 gamma_request).2
    = (add_book true library gamma_request).2.
Proof.
  apply (add_book_resubmit true library gamma_request).
  - reflexivity.
  - apply gamma_added.
Defined.

(** X5 with an author key that the sample library does not have. *)
Lemma add_book_unknown_author_witness :
  add_book true library unknown_author_request
  = (RenderAddBook [(1, adams); (2, baker)]
       (Some (isbn_conflict_message "444")), library).
Proof.
  apply (add_book_unknown_author library unknown_author_request 9).
  - reflexivity.
  - by vm_compute.
  - by vm_compute.
  - by left.
  - reflexivity.
  - reflexivity.
  - reflexivity.
Defined.

(** X6 on the empty form of the sample library. *)
Lemma add_book_form_authors_witness :
  (∀ k a, (k, a) ∈ [(1, adams); (2, baker)] ↔ authors library !! k = Some a)
  ∧ NoDup [(1, adams); (2, baker)]
  ∧ StronglySorted DB.by_name [(1, adams); (2, baker)].
Proof.
  apply (add_book_form_authors true library list_all
           [(1, adams); (2, baker)] None).
  reflexivity.
Defined.

(** X9 with a new author sent twice. *)
Lemma add_author_twice_witness :
  ∃ k1 k2 a,
    k1 ≠ k2
    ∧ name a = "Clarke"
    ∧ authors library !! k1 = None ∧ authors library !! k2 = None
    ∧ authors (add_author (add_author library clarke_request).2
                 clarke_request).2 !! k1 = Some a
    ∧ authors (add_author (add_author library clarke_request).2
                 clarke_request).2 !! k2 = Some a
    ∧ (add_author library clarke_request).1
      = RenderAddAuthor (Some "Author 'Clarke' added successfully.")
    ∧ (add_author (add_author library clarke_request).2 clarke_request).1
      = RenderAddAuthor (Some "Author 'Clarke' added successfully.").
Proof.
  apply (add_author_twice library clarke_request).
  - reflexivity.
  - by vm_compute.
  - right. eexists. reflexivity.
  - by left.
Defined.

(** X11 on the delete that takes Baker away. *)
Lemma delete_book_keeps_references_witness :
  ref_integrity (delete_book library 3).2.
Proof.
  apply (delete_book_keeps_references library 3).
  apply ref_integrity_library.
Defined.

(** X12 on the delete that takes Baker away. *)
Lemma delete_book_keeps_authors_with_books_witness :
  every_author_has_book (delete_book library 3).2.
Proof.
  apply (delete_book_keeps_authors_with_books library 3).
  apply every_author_has_book_library.
Defined.

(** X13 along a sequence that adds and deletes. *)
Lemma reachable_ref_integrity_witness :
  ref_integrity
    (run_ops true library
       [OpAddBook unknown_author_request;
        OpAddAuthor clarke_request;
        OpAddBook gamma_request;
        OpDeleteBook 3;
        OpListBooks list_all;
        OpDeleteBook 4]).
Proof.
  apply (reachable_ref_integrity library). apply ref_integrity_library.
Defined.

(** X14 with the fourth book added to the sample library and deleted. *)
Lemma add_book_then_delete_witness :
  ∃ a,
    Py.int (field gamma_request "author_id") = Ok a
    ∧ (delete_book (add_book true library gamma_request).2
         (DB.next_id (books library))).1
      = Redirect "home" ("Deleted book '" +:+ field gamma_request "title"
                         +:+ "'.")
    ∧ books (delete_book (add_book true library gamma_request).2
               (DB.next_id (books library))).2 = books library
    ∧ ((∃ k b, books library !! k = Some b ∧ author_id b = a) →
       authors (delete_book (add_book true library gamma_request).2
                  (DB.next_id (books library))).2 = authors library)
    ∧ ((∀ k b, books library !! k = Some b → author_id b ≠ a) →
       authors (delete_book (add_book true library gamma_request).2
                  (DB.next_id (books library))).2
       = delete a (authors library)).
Proof.
  apply (add_book_then_delete true library gamma_request).
  - reflexivity.
  - apply gamma_added.
Defined.

(** X15 on a listed book of the sample library. *)
Lemma home_lists_store_books_witness :
  books library !! 2 = Some alpha
  ∧ is_Some (authors library !! author_id alpha).
Proof.
  apply (home_lists_store_books library list_all 2 alpha).
  change ((2, alpha) ∈ [(2, alpha); (3, beta); (1, zoo)]).
  constructor.
Defined.

(** X16 on the sample library. *)
Lemma home_all_books_witness :
  (∀ k b, (k, b) ∈ listed (home library list_all)
          ↔ books library !! k = Some b)
  ∧ length (listed (home library list_all)) = size (books library).
Proof.
  apply (home_all_books library list_all).
  - apply ref_integrity_library.
  - reflexivity.
Defined.

(** X17 with a search text in capitals and in small letters. *)
Lemma home_search_ignores_case_witness :
  listed (home library (get_request [("q", "ADAMS")]))
  = listed (home library (get_request [("q", "adams")])).
Proof.
  apply (home_search_ignores_case library
           (get_request [("q", "ADAMS")]) (get_request [("q", "adams")])).
  - reflexivity.
  - reflexivity.
Defined.

(** X18 with the two sort keys. *)
Lemma home_sort_same_books_witness :
  listed (home library (get_request [("sort", "author")]))
  ≡ₚ listed (home library (get_request [("sort", "title")])).
Proof.
  apply (home_sort_same_books library
           (get_request [("sort", "author")])
           (get_request [("sort", "title")])).
  reflexivity.
Defined.



(** X21 with a new author for the sample library. *)
Lemma add_author_keeps_listing_witness :
  home (add_author library clarke_request).2 list_all
  = home library list_all.
Proof.
  apply (add_author_keeps_listing library clarke_request list_all).
  apply ref_integrity_library.
Defined.

(** X23 with a search for four characters. *)
Lemma home_underscore_search_witness :
  (1, zoo) ∈ listed (home library (get_request [("q", "____")]))
  ↔ books library !! 1 = Some zoo
    ∧ ∃ a, authors library !! author_id zoo = Some a
           ∧ (4 ≤ String.length (Text.c_str (title zoo))
              ∨ 4 ≤ String.length (Text.c_str (isbn zoo))
              ∨ 4 ≤ String.length (Text.c_str (name a)))%nat.
Proof.
  apply (home_underscore_search library (get_request [("q", "____")]) 3).
  - reflexivity.
  - unfold within_like_limit. vm_compute. discriminate.
  - apply ascii_store_library.
Defined.

